(** * qPython asyncio client: protocol engine

    A shallow embedding of [qpython/qaioreader.py], [qpython/qaiowriter.py]
    and [qpython/qaioconnection.py], and the properties of the connection
    life cycle, the handshake, the frame header, the compression envelope
    and the byte acquisition that the specification states about them.

    Layout: results and exceptions; the asyncio streams the code runs on;
    the byte buffer; [QReader]; [QWriter]; [QConnection]; then the
    theorems. *)

From stdpp Require Import base list numbers.
From Stdlib Require Import ZArith String Strings.Byte Lia.
Import ListNotations.
Local Open Scope Z_scope.

(** ** Exceptions and results *)

(** The exceptions the three modules raise or let through.  The
    [Q...Exception] classes carry the message given at the raise site. *)
Inductive exn : Type :=
| QConnectionException (msg : string)
| QAuthenticationException (msg : string)
| QReaderException (msg : string)
| QWriterException (msg : string)
| TypeError (msg : string)
| AttributeError (msg : string)
| ValueError (msg : string)
| UnicodeEncodeError
| OSError (errno : Z)
| ConnectionResetError
| IndexError (msg : string)
| CodecError (msg : string).

(** The error kinds of the specification (section 7). *)
Inductive error_kind : Type :=
| ConnectionError
| AuthenticationError
| ProtocolError
| CodecFailure
| OtherFailure.

Definition kind_of (e : exn) : error_kind :=
  match e with
  | QConnectionException _ => ConnectionError
  | QAuthenticationException _ => AuthenticationError
  | QReaderException _ => ProtocolError
  | QWriterException _ => ProtocolError
  | CodecError _ => CodecFailure
  | _ => OtherFailure
  end.

Inductive result (A : Type) : Type :=
| Ok (a : A)
| Raise (e : exn).
Arguments Ok {A} a.
Arguments Raise {A} e.

(** A computation over a mutable state [S] that returns or raises.  The
    state reached is kept on both outcomes: attribute assignments made
    before a [raise] stay visible to the caller. *)
Definition M (S A : Type) : Type := S -> result A * S.

Definition ret {S A} (a : A) : M S A := fun s => (Ok a, s).
Definition raise {S A} (e : exn) : M S A := fun s => (Raise e, s).
Definition bind {S A B} (m : M S A) (k : A -> M S B) : M S B :=
  fun s => match m s with
           | (Ok a, s') => k a s'
           | (Raise e, s') => (Raise e, s')
           end.
Definition get {S} : M S S := fun s => (Ok s, s).
Definition put {S} (s : S) : M S unit := fun _ => (Ok tt, s).
Definition modify {S} (f : S -> S) : M S unit := fun s => (Ok tt, f s).

(** [try: ... except: handler; raise] *)
Definition try_except_reraise {S A} (m : M S A) (handler : S -> S) : M S A :=
  fun s => match m s with
           | (Ok a, s') => (Ok a, s')
           | (Raise e, s') => (Raise e, handler s')
           end.

(** Run a computation on the second component of a pair state. *)
Definition on_snd {S T A} (m : M T A) : M (S * T) A :=
  fun st => match m (snd st) with (r, t') => (r, (fst st, t')) end.
Definition on_fst {S T A} (m : M S A) : M (S * T) A :=
  fun st => match m (fst st) with (r, s') => (r, (s', snd st)) end.

Declare Scope py_scope.
Delimit Scope py_scope with py.
Notation "x <- m ;; k" := (bind m (fun x => k))
  (at level 100, m at next level, right associativity) : py_scope.
Notation "m ;; k" := (bind m (fun _ => k))
  (at level 100, right associativity) : py_scope.
Local Open Scope py_scope.

(** [await v] where [v] is [None]: the operand has been evaluated, the
    [await] itself raises. *)
Definition await_None {S A} : M S A :=
  raise (TypeError "object NoneType can't be used in 'await' expression").

(** ** Bytes *)

Definition bytes : Type := list byte.

Definition byte_val (b : byte) : Z := Z.of_N (Byte.to_N b).

Definition len {A} (l : list A) : Z := Z.of_nat (List.length l).

(** [bytes([i0, i1, ...])]: every item must be in [range(256)]. *)
Fixpoint bytes_of_ints (l : list Z) : result bytes :=
  match l with
  | [] => Ok []
  | i :: r =>
      match (if (0 <=? i) && (i <? 256) then Byte.of_N (Z.to_N i) else None) with
      | None => Raise (ValueError "bytes must be in range(0, 256)")
      | Some b => match bytes_of_ints r with
                  | Ok bs => Ok (b :: bs)
                  | Raise e => Raise e
                  end
      end
  end.

(** Little-endian value of a byte string, least significant byte first. *)
Fixpoint le_value (bs : bytes) : Z :=
  match bs with
  | [] => 0
  | b :: r => Z.lor (byte_val b) (Z.shiftl (le_value r) 8)
  end.

Inductive Endianness : Type := LittleEndian | BigEndian.

Definition Endianness_eqb (a b : Endianness) : bool :=
  match a, b with
  | LittleEndian, LittleEndian | BigEndian, BigEndian => true
  | _, _ => false
  end.

(** [struct.unpack(endianness + 'I', bs)] and [... + 'q'] *)
Definition unpack_unsigned (e : Endianness) (bs : bytes) : Z :=
  match e with
  | LittleEndian => le_value bs
  | BigEndian => le_value (rev bs)
  end.

Definition unpack_signed (e : Endianness) (bs : bytes) : Z :=
  let u := unpack_unsigned e bs in
  if u <? Z.shiftl 1 (8 * len bs - 1) then u else u - Z.shiftl 1 (8 * len bs).

Definition pack_unsigned (e : Endianness) (width : nat) (v : Z) : bytes :=
  let le := map (fun i => match Byte.of_N (Z.to_N (Z.land (Z.shiftr v (8 * Z.of_nat i)) 255)) with
                          | Some b => b
                          | None => x00
                          end) (seq 0 width) in
  match e with
  | LittleEndian => le
  | BigEndian => rev le
  end.

(** ** The asyncio streams

    [asyncio.open_connection] hands the connection a [StreamReader] and a
    [StreamWriter] over one transport.  The event loop is modelled by the
    table of the transports opened so far and by the outcomes the network
    holds for the connection attempts still to come. *)

Module Asyncio.

(** One transport.  [sent] are the bytes the writer has handed over, in
    order; [closing] is set by [close()]; [buffer] is the reader's internal
    buffer; [arriving] are the segments in which the peer's remaining bytes
    reach the reader, end of file after the last. *)
Record Transport : Type := mkTransport {
  sent : bytes;
  closing : bool;
  buffer : bytes;
  arriving : list bytes
}.

(** What the network answers to a connection attempt. *)
Inductive Outcome : Type :=
| Accept (segments : list bytes)
| Refuse (e : exn).

Record Loop : Type := mkLoop {
  transports : list Transport;
  network : list Outcome
}.

(** A stream object is a reference to its transport in the table. *)
Definition stream : Type := nat.

Definition set_transport (s : stream) (t : Transport) (l : Loop) : Loop :=
  mkLoop (<[s := t]> (transports l)) (network l).

(** [await asyncio.open_connection(host, port)] *)
Definition open_connection (host : option string) (port : Z) : M Loop (stream * stream) :=
  fun l =>
    match network l with
    | [] => (Raise (OSError 111), l)
    | Refuse e :: rest => (Raise e, mkLoop (transports l) rest)
    | Accept segments :: rest =>
        let s := List.length (transports l) in
        (Ok (s, s), mkLoop (transports l ++ [mkTransport [] false [] segments]) rest)
    end.

(** The reader waits until data or end of file is fed: the next segment
    that is not empty becomes the buffer. *)
Fixpoint wait_for_data (segments : list bytes) : bytes * list bytes :=
  match segments with
  | [] => ([], [])
  | [] :: rest => wait_for_data rest
  | seg :: rest => (seg, rest)
  end.

Module StreamReader.

(** [await reader.read(n)]: nothing for [n = 0]; everything up to end of
    file for [n < 0]; otherwise up to [n] bytes of what the buffer holds,
    after waiting for data when it is empty, and [b''] at end of file. *)
Definition read (s : stream) (n : Z) : M Loop bytes :=
  fun l =>
    match transports l !! s with
    | None => (Raise (AttributeError "no such stream"), l)
    | Some t =>
        if n =? 0 then (Ok [], l)
        else if n <? 0 then
          (Ok (buffer t ++ List.concat (arriving t)),
           set_transport s (mkTransport (sent t) (closing t) [] []) l)
        else
          let '(buf, rest) :=
            match buffer t with
            | [] => wait_for_data (arriving t)
            | _ :: _ => (buffer t, arriving t)
            end in
          (Ok (take (Z.to_nat n) buf),
           set_transport s (mkTransport (sent t) (closing t) (drop (Z.to_nat n) buf) rest) l)
    end.

End StreamReader.

Module StreamWriter.

(** [writer.write(data)]: a closing transport drops the data. *)
Definition write (s : stream) (data : bytes) : M Loop unit :=
  fun l =>
    match transports l !! s with
    | None => (Raise (AttributeError "no such stream"), l)
    | Some t =>
        if closing t then (Ok tt, l)
        else
          (Ok tt,
           set_transport s
             (mkTransport (sent t ++ data) (closing t) (buffer t) (arriving t)) l)
    end.

(** [await writer.drain()] *)
Definition drain (s : stream) : M Loop unit :=
  fun l =>
    match transports l !! s with
    | None => (Raise (AttributeError "no such stream"), l)
    | Some t => if closing t then (Raise ConnectionResetError, l) else (Ok tt, l)
    end.

(** [writer.close()]: an ordinary method, not a coroutine; it closes the
    transport and returns [None] ([wait_closed()] is the awaitable). *)
Definition close (s : stream) : M Loop unit :=
  fun l =>
    match transports l !! s with
    | None => (Raise (AttributeError "no such stream"), l)
    | Some t => (Ok tt, set_transport s (mkTransport (sent t) true (buffer t) (arriving t)) l)
    end.

(** [await writer.wait_closed()] *)
Definition wait_closed (s : stream) : M Loop unit :=
  fun l =>
    match transports l !! s with
    | None => (Raise (AttributeError "no such stream"), l)
    | Some _ => (Ok tt, l)
    end.

End StreamWriter.

End Asyncio.

Import Asyncio.

(** Truth value of an attribute that holds an object or [None]. *)
Definition truthy {A} (o : option A) : bool :=
  match o with
  | Some _ => true
  | None => false
  end.

(** ** Values, options and messages *)

(** The Python values that cross the protocol engine: queries and their
    parameters on the way out, decoded data or raw chunks on the way in. *)
#[local] Unset Elimination Schemes.
Inductive pyobj : Type :=
| PyNone
| PyInt (z : Z)
| PyStr (s : string)
| PyBytes (b : bytes)
| PyList (l : list pyobj)
| PyQException (msg : string).
#[local] Set Elimination Schemes.

(** Keyword options ([raw], [single_char_strings], ...), latest first. *)
Definition Options : Type := list (string * bool).

Fixpoint option_value (name : string) (default : bool) (o : Options) : bool :=
  match o with
  | [] => default
  | (k, v) :: rest => if String.eqb k name then v else option_value name default rest
  end.

(** [self._options.union_dict( **options)]: the call's options take
    precedence over the stored ones. *)
Definition union_dict (stored call : Options) : Options := (call ++ stored)%list.

Definition raw (o : Options) : bool := option_value "raw" false o.

Module MessageType.
(** Modelled from the spec: the class [MessageType] of
    [qpython/qconnection.py] is not part of the sources; section 6 gives
    the message kind byte as 0 = ASYNC, 1 = SYNC, 2 = RESPONSE. *)
Definition ASYNC : Z := 0.
Definition SYNC : Z := 1.
Definition RESPONSE : Z := 2.
End MessageType.

Module QMessage.
(** Modelled from the spec: the class [QMessage] of [qpython/qreader.py] is
    not part of the sources; [read_header] builds it as
    [QMessage(None, message_type, message_size, message_compression_mode)]
    and section 3 names its fields. *)
Record t : Type := mk {
  data : pyobj;
  type : Z;
  size : Z;
  compression_mode : Z
}.
Definition set_data (d : pyobj) (m : t) : t :=
  mk d (type m) (size m) (compression_mode m).
End QMessage.

(** ** The byte buffer *)

Module BytesBuffer.

(** Modelled from the spec: the buffer class of [qpython/qreader.py]
    ([wrap], [get_byte], [get_uint], [get_long], [raw]) is not part of the
    sources.  Section 3 and section 6 give the header as single bytes and a
    4-byte size in the declared endianness, the size-extension byte as the
    high byte of a 40-bit size, and the compression header as an unsigned
    4-byte or a signed 8-byte field; a read past the end of the buffer is a
    short read, a [ProtocolError] (section 7). *)
Record t : Type := mk {
  data : bytes;
  position : nat;
  endianness : Endianness
}.

Definition wrap (d : bytes) : M t unit :=
  modify (fun b => mk d 0 (endianness b)).

Definition set_endianness (e : Endianness) : M t unit :=
  modify (fun b => mk (data b) (position b) e).

Definition raw (offset : Z) : M t bytes :=
  fun b =>
    if (offset <? 0) || (len (data b) <? Z.of_nat (position b) + offset) then
      (Raise (QReaderException "Attempt to read data out of buffer bounds"), b)
    else
      (Ok (take (Z.to_nat offset) (drop (position b) (data b))),
       mk (data b) (position b + Z.to_nat offset) (endianness b)).

Definition get_byte : M t Z :=
  bs <- raw 1 ;; b <- get ;; ret (unpack_unsigned (endianness b) bs).

Definition get_uint : M t Z :=
  bs <- raw 4 ;; b <- get ;; ret (unpack_unsigned (endianness b) bs).

Definition get_long : M t Z :=
  bs <- raw 8 ;; b <- get ;; ret (unpack_signed (endianness b) bs).

End BytesBuffer.

(** ** External collaborators

    What the engine takes from outside: the host byte order, the class
    constant [Connection.MAX_PROTOCOL_VERSION], text encoding, the value
    codec in both directions and the compression kernel. *)
Class Externals : Type := {
  sys_byteorder : Endianness;
  MAX_PROTOCOL_VERSION : Z;
  str_encode : string -> string -> result bytes;
  serialize : option Z -> Options -> pyobj -> result bytes;
  deserialize : BytesBuffer.t -> bool -> Options -> result pyobj;
  uncompress : bytes -> Z -> result bytes
}.

(** Lift a pure result into a computation. *)
Definition of_result {S A} (r : result A) : M S A := fun s => (r, s).

(** ** qaioreader.py *)

Module QReader.

Record t : Type := mk {
  _stream : option stream;
  _encoding : string;
  _buffer : BytesBuffer.t;
  _is_native : bool;
  _options : Options
}.

(** The reader together with the event loop its stream lives in. *)
Definition State : Type := (t * Loop)%type.

Definition set_buffer (b : BytesBuffer.t) (r : t) : t :=
  mk (_stream r) (_encoding r) b (_is_native r) (_options r).
Definition set_is_native (n : bool) (r : t) : t :=
  mk (_stream r) (_encoding r) (_buffer r) n (_options r).
Definition set_options (o : Options) (r : t) : t :=
  mk (_stream r) (_encoding r) (_buffer r) (_is_native r) o.

Definition self : M State t := fun st => (Ok (fst st), st).

(** A buffer operation, on [self._buffer]. *)
Definition on_buffer {A} (m : M BytesBuffer.t A) : M State A :=
  fun st => match m (_buffer (fst st)) with
            | (r, b') => (r, (set_buffer b' (fst st), snd st))
            end.

Section Methods.
Context `{Externals}.

Definition _read_bytes (length : Z) : M State bytes :=
  r <- self ;;
  match _stream r with
  | None =>
      raise (QReaderException
               "There is no input data. QReader requires either stream or data chunk")
  | Some stream =>
      if length =? 0 then ret []
      else
        data <- on_snd (StreamReader.read stream length) ;;
        if len data =? 0 then raise (QReaderException "Error while reading data")
        else ret data
  end.

Definition read_header (source : option bytes) : M State QMessage.t :=
  r <- self ;;
  (if truthy (_stream r) then
     header <- _read_bytes 8 ;;
     on_buffer (BytesBuffer.wrap header)
   else
     match source with
     | Some chunk => on_buffer (BytesBuffer.wrap chunk)
     | None => raise (TypeError "object of type 'NoneType' has no len()")
     end) ;;
  marker <- on_buffer BytesBuffer.get_byte ;;
  on_buffer (BytesBuffer.set_endianness (if marker =? 1 then LittleEndian else BigEndian)) ;;
  r <- self ;;
  on_fst (modify (set_is_native
                    (Endianness_eqb (BytesBuffer.endianness (_buffer r)) sys_byteorder))) ;;
  message_type <- on_buffer BytesBuffer.get_byte ;;
  message_compression_mode <- on_buffer BytesBuffer.get_byte ;;
  message_size_ext <- on_buffer BytesBuffer.get_byte ;;
  message_size <- on_buffer BytesBuffer.get_uint ;;
  let message_size := message_size + Z.shiftl message_size_ext 32 in
  ret (QMessage.mk PyNone message_type message_size message_compression_mode).

(** Modelled from the spec: [Reader.read_data] of [qpython/qreader.py],
    called first through [super()], is not part of the sources; it takes
    the per-call options, which the rest of the method reads back as
    [self._options]. *)
Definition super_read_data (message_size compression_mode : Z) (options : Options)
  : M State unit :=
  on_fst (modify (set_options options)).

Definition read_data (message_size compression_mode : Z) (options : Options)
  : M State pyobj :=
  super_read_data message_size compression_mode options ;;
  r <- self ;;
  raw_data <-
    (if 0 <? compression_mode then
       let comprHeaderLen := if compression_mode =? 1 then 4 else 8 in
       (if truthy (_stream r) then
          header <- _read_bytes comprHeaderLen ;;
          on_buffer (BytesBuffer.wrap header)
        else ret tt) ;;
       field <- on_buffer (if compression_mode =? 1 then BytesBuffer.get_uint
                           else BytesBuffer.get_long) ;;
       let uncompressed_size := -8 + field in
       compressed_data <-
         (if truthy (_stream r) then _read_bytes (message_size - (8 + comprHeaderLen))
          else on_buffer (BytesBuffer.raw (message_size - (8 + comprHeaderLen)))) ;;
       if uncompressed_size <=? 0 then
         raise (QReaderException "Error while data decompression.")
       else
         raw_data <- of_result (uncompress compressed_data uncompressed_size) ;;
         on_buffer (BytesBuffer.wrap raw_data) ;;
         ret raw_data
     else if truthy (_stream r) then
       raw_data <- _read_bytes (message_size - 8) ;;
       on_buffer (BytesBuffer.wrap raw_data) ;;
       ret raw_data
     else ret []) ;;
  raw_data <-
    (if negb (truthy (_stream r)) && raw (_options r) then
       on_buffer (BytesBuffer.raw (message_size - 8))
     else ret raw_data) ;;
  r <- self ;;
  if raw (_options r) then ret (PyBytes raw_data)
  else of_result (deserialize (_buffer r) (_is_native r) (_options r)).

Definition read (source : option bytes) (options : Options) : M State QMessage.t :=
  message <- read_header source ;;
  data <- read_data (QMessage.size message) (QMessage.compression_mode message) options ;;
  ret (QMessage.set_data data message).

End Methods.

End QReader.

(** ** qaiowriter.py *)

Module QWriter.

Record t : Type := mk {
  _stream : option stream;
  _protocol_version : option Z;
  _encoding : string;
  _buffer : bytes
}.

Definition State : Type := (t * Loop)%type.

Definition set_buffer (b : bytes) (w : t) : t :=
  mk (_stream w) (_protocol_version w) (_encoding w) b.

Definition self : M State t := fun st => (Ok (fst st), st).

Section Methods.
Context `{Externals}.

(** Modelled from the spec: [Writer.write] of [qpython/qwriter.py], called
    first through [super()], is not part of the sources.  Section 4.3: it
    builds the 8-byte header plus the codec-encoded payload into a local
    buffer; section 6 gives the header layout. *)
Definition super_write (data : pyobj) (msg_type : Z) (options : Options) : M State unit :=
  w <- self ;;
  payload <- of_result (serialize (_protocol_version w) options data) ;;
  let size := 8 + len payload in
  let marker := match sys_byteorder with LittleEndian => 1 | BigEndian => 0 end in
  let header :=
    (pack_unsigned LittleEndian 1 marker ++ pack_unsigned LittleEndian 1 msg_type
     ++ pack_unsigned LittleEndian 1 0 ++ pack_unsigned LittleEndian 1 (Z.shiftr size 32)
     ++ pack_unsigned sys_byteorder 4 size)%list in
  on_fst (modify (set_buffer (header ++ payload)%list)).

(** Returns [None] when bound to a stream, the assembled buffer otherwise. *)
Definition write (data : pyobj) (msg_type : Z) (options : Options)
  : M State (option bytes) :=
  super_write data msg_type options ;;
  w <- self ;;
  match _stream w with
  | Some stream =>
      on_snd (StreamWriter.write stream (_buffer w)) ;;
      on_snd (StreamWriter.drain stream) ;;
      ret None
  | None => ret (Some (_buffer w))
  end.

End Methods.

End QWriter.

(** ** qaioconnection.py *)

Module QConnection.

Record t : Type := mk {
  host : option string;
  port : Z;
  username : option string;
  password : option string;
  _encoding : string;
  _options : Options;
  _s_reader : option stream;
  _s_writer : option stream;
  _protocol_version : option Z;
  _writer : option QWriter.t;
  _reader : option QReader.t
}.

(** The connection object together with the event loop. *)
Definition State : Type := (t * Loop)%type.

Definition set_streams (r w : option stream) (c : t) : t :=
  mk (host c) (port c) (username c) (password c) (_encoding c) (_options c)
     r w (_protocol_version c) (_writer c) (_reader c).
Definition set_protocol_version (v : option Z) (c : t) : t :=
  mk (host c) (port c) (username c) (password c) (_encoding c) (_options c)
     (_s_reader c) (_s_writer c) v (_writer c) (_reader c).
Definition set_writer (w : option QWriter.t) (c : t) : t :=
  mk (host c) (port c) (username c) (password c) (_encoding c) (_options c)
     (_s_reader c) (_s_writer c) (_protocol_version c) w (_reader c).
Definition set_reader (r : option QReader.t) (c : t) : t :=
  mk (host c) (port c) (username c) (password c) (_encoding c) (_options c)
     (_s_reader c) (_s_writer c) (_protocol_version c) (_writer c) r.

Definition self : M State t := fun st => (Ok (fst st), st).

(** A call on [self._s_writer] / [self._s_reader], looked up at the call. *)
Definition on_s_writer {A} (f : stream -> M Loop A) : M State A :=
  c <- self ;;
  match _s_writer c with
  | Some w => on_snd (f w)
  | None => raise (AttributeError "'NoneType' object has no attribute")
  end.
Definition on_s_reader {A} (f : stream -> M Loop A) : M State A :=
  c <- self ;;
  match _s_reader c with
  | Some r => on_snd (f r)
  | None => raise (AttributeError "'NoneType' object has no attribute")
  end.

(** A method of [self._writer] / [self._reader], run on the object the
    attribute holds and on the event loop. *)
Definition on_writer {A} (m : M QWriter.State A) : M State A :=
  fun st =>
    match _writer (fst st) with
    | None => (Raise (AttributeError "'NoneType' object has no attribute"), st)
    | Some w => match m (w, snd st) with
                | (r, (w', l')) => (r, (set_writer (Some w') (fst st), l'))
                end
    end.
Definition on_reader {A} (m : M QReader.State A) : M State A :=
  fun st =>
    match _reader (fst st) with
    | None => (Raise (AttributeError "'NoneType' object has no attribute"), st)
    | Some rd => match m (rd, snd st) with
                 | (r, (rd', l')) => (r, (set_reader (Some rd') (fst st), l'))
                 end
    end.

(** [s if s else ''] and [not s] for an attribute that is a string or
    [None]. *)
Definition str_or_empty (s : option string) : string :=
  match s with
  | Some v => v
  | None => ""
  end.
Definition str_truthy (s : option string) : bool :=
  match s with
  | Some v => negb (String.eqb v "")
  | None => false
  end.

(** [struct.unpack('B', response)[0]] *)
Definition unpack_B {S} (response : bytes) : M S Z :=
  match response with
  | [b] => ret (byte_val b)
  | _ => raise (ValueError "unpack requires a buffer of 1 bytes")
  end.

(** Modelled from the spec: [Connection.__init__] of
    [qpython/qconnection.py] is not part of the sources.  Section 3: a
    connection is constructed with its parameters and no stream; the
    protocol version, the writer and the reader are populated by [open]. *)
Definition __init__ (host : option string) (port : Z) (username password : option string)
    (encoding : string) (options : Options) : t :=
  mk host port username password encoding options None None None None None.

Section Methods.
Context `{Externals}.

Definition _init_socket : M State unit :=
  c <- self ;;
  try_except_reraise
    (streams <- on_snd (open_connection (host c) (port c)) ;;
     on_fst (modify (set_streams (Some (fst streams)) (Some (snd streams)))))
    (fun st => (set_streams None None (fst st), snd st)).

Definition close : M State unit :=
  c <- self ;;
  if truthy (_s_writer c) then
    on_s_writer StreamWriter.close ;;
    on_s_writer StreamWriter.wait_closed
  else ret tt.

Definition is_connected (c : t) : bool :=
  if truthy (_s_writer c) then true else false.

Definition _initialize : M State unit :=
  c <- self ;;
  let credentials :=
    (str_or_empty (username c) ++ ":" ++ str_or_empty (password c))%string in
  credentials <- of_result (str_encode credentials (_encoding c)) ;;
  offer <- of_result (bytes_of_ints [MAX_PROTOCOL_VERSION; 0]) ;;
  on_s_writer (fun w => StreamWriter.write w (credentials ++ offer)%list) ;;
  on_s_writer StreamWriter.drain ;;
  response <- on_s_reader (fun r => StreamReader.read r 1) ;;
  response <-
    (if negb (len response =? 1) then
       (* [await self._s_writer.close()]: [close()] runs and returns [None],
          which is then awaited; [close] above awaits [wait_closed()] *)
       on_s_writer StreamWriter.close ;;
       @await_None State unit ;;
       _init_socket ;;
       on_s_writer (fun w => StreamWriter.write w (credentials ++ [x00])%list) ;;
       on_s_writer StreamWriter.drain ;;
       response <- on_s_reader (fun r => StreamReader.read r 1) ;;
       if negb (len response =? 1) then
         close ;;
         raise (QAuthenticationException "Connection denied.")
       else ret response
     else ret response) ;;
  version <- unpack_B response ;;
  on_fst (modify (set_protocol_version (Some (Z.min version MAX_PROTOCOL_VERSION)))).

(** The reader and writer classes are the defaults of [__init__],
    [QReader] and [QWriter].  Their constructors belong to the base
    classes, which are not part of the sources: the objects are bound to
    the streams and take the negotiated version and the encoding (section
    4.1), with an empty buffer. *)
Definition open : M State unit :=
  c <- self ;;
  if negb (truthy (_s_writer c)) then
    if negb (str_truthy (host c)) then
      raise (QConnectionException "Host cannot be None")
    else
      _init_socket ;;
      _initialize ;;
      c <- self ;;
      on_fst (modify (set_writer
        (Some (QWriter.mk (_s_writer c) (_protocol_version c) (_encoding c) [])))) ;;
      on_fst (modify (set_reader
        (Some (QReader.mk (_s_reader c) (_encoding c)
                 (BytesBuffer.mk [] 0 sys_byteorder) true []))))
  else ret tt.

Definition query (msg_type : Z) (query : pyobj) (parameters : list pyobj)
    (options : Options) : M State unit :=
  c <- self ;;
  if negb (truthy (_s_writer c)) then
    raise (QConnectionException "Connection is not established.")
  else if negb (0 =? len parameters) && (8 <? len parameters) then
    raise (QWriterException "Too many parameters.")
  else if (0 =? len parameters) || (len parameters =? 0) then
    on_writer (QWriter.write query msg_type (union_dict (_options c) options)) ;;
    ret tt
  else
    on_writer (QWriter.write (PyList (query :: parameters)) msg_type
                 (union_dict (_options c) options)) ;;
    ret tt.

Definition receive (data_only : bool) (options : Options)
  : M State (pyobj + QMessage.t) :=
  c <- self ;;
  result <- on_reader (QReader.read None (union_dict (_options c) options)) ;;
  ret (if data_only then inl (QMessage.data result) else inr result).

Definition sendSync (query_ : pyobj) (parameters : list pyobj) (options : Options)
  : M State pyobj :=
  query MessageType.SYNC query_ parameters options ;;
  response <- receive false options ;;
  match response with
  | inl _ => raise (AttributeError "object has no attribute 'type'")
  | inr response =>
      if QMessage.type response =? MessageType.RESPONSE then
        ret (QMessage.data response)
      else
        (* [self._writer.write(...)] is called and not awaited: the call
           builds the coroutine and nothing runs it *)
        let coroutine : M State (option bytes) :=
          on_writer (QWriter.write
                       (PyQException "nyi: qPython expected response message")
                       (if QMessage.type response =? MessageType.ASYNC
                        then MessageType.ASYNC else MessageType.RESPONSE) []) in
        raise (QReaderException
                 "Received message of type: %s where response was expected")
  end.

Definition sendAsync (query_ : pyobj) (parameters : list pyobj) (options : Options)
  : M State unit :=
  query MessageType.ASYNC query_ parameters options.

Definition __call__ (parameters : list pyobj) (options : Options) : M State pyobj :=
  match parameters with
  | [] => raise (IndexError "tuple index out of range")
  | query_ :: rest => sendSync query_ rest options
  end.

End Methods.

End QConnection.

(** ** A test harness

    The collaborators as stubs: latin-1 text, the value codec as the
    identity on byte strings, a kernel that stores its input unchanged. *)

Module Harness.

Definition latin1 (s : string) : bytes := list_byte_of_string s.

Definition stub : Externals := {|
  sys_byteorder := LittleEndian;
  MAX_PROTOCOL_VERSION := 3;
  str_encode := fun text _ => Ok (latin1 text);
  serialize := fun _ _ v =>
    match v with
    | PyBytes b => Ok b
    | PyStr s => Ok (latin1 s)
    | _ => Raise (CodecError "unsupported value")
    end;
  deserialize := fun buf _ _ =>
    Ok (PyBytes (drop (BytesBuffer.position buf) (BytesBuffer.data buf)));
  uncompress := fun compressed _ => Ok compressed
|}.

(** A fresh connection to [localhost:5000] without credentials. *)
Definition fresh : QConnection.t :=
  QConnection.__init__ (Some "localhost"%string) 5000 None None "latin-1" [].

(** An event loop with no transport yet, facing the given network. *)
Definition loop (net : list Outcome) : Loop := mkLoop [] net.

(** A reader bound to stream 0 and a loop whose only transport delivers
    the given segments. *)
Definition stream_reader : QReader.t :=
  QReader.mk (Some 0%nat) "latin-1" (BytesBuffer.mk [] 0 LittleEndian) true [].
Definition chunk_reader : QReader.t :=
  QReader.mk None "latin-1" (BytesBuffer.mk [] 0 LittleEndian) true [].
Definition delivering (segments : list bytes) : Loop :=
  mkLoop [mkTransport [] false [] segments] [].

(** The connection after [open()] against a peer that answers the
    handshake with version 3. *)
Definition opened : QConnection.State :=
  snd (@QConnection.open stub (fresh, loop [Accept [[x03]]])).

Definition nine_parameters : list pyobj :=
  [PyInt 1; PyInt 2; PyInt 3; PyInt 4; PyInt 5; PyInt 6; PyInt 7; PyInt 8; PyInt 9].

(** [open()] then [sendSync('q')] against a peer that answers the
    handshake with version 3 and the query with one 9-byte message of the
    given kind. *)
Definition sync_exchange (kind : byte) : result pyobj * QConnection.State :=
  (@QConnection.open stub ;; @QConnection.sendSync stub (PyStr "q") [] [])
    (fresh, loop [Accept [[x03]; [x01; kind; x00; x00; x09; x00; x00; x00; x2a]]]).

(** The opened connection facing a peer that will answer with one 9-byte
    message of the given kind. *)
Definition awaiting (kind : byte) : QConnection.State :=
  snd (@QConnection.open stub
         (fresh, loop [Accept [[x03]; [x01; kind; x00; x00; x09; x00; x00; x00; x2a]]])).

(** The handshake frame and the frame of the query ['q'] as [sync_exchange]
    sends them. *)
Definition handshake_frame : bytes := [x3a; x03; x00].
Definition query_frame : bytes := [x01; x01; x00; x00; x09; x00; x00; x00; x71].

(** A connection constructed without a host. *)
Definition hostless : QConnection.t :=
  QConnection.__init__ None 5000 None None "latin-1" [].

(** Collaborators whose text encoding rejects every string. *)
Definition unencodable : Externals := {|
  sys_byteorder := LittleEndian;
  MAX_PROTOCOL_VERSION := 3;
  str_encode := fun _ _ => Raise UnicodeEncodeError;
  serialize := fun _ _ _ => Raise (CodecError "unsupported value");
  deserialize := fun _ _ _ => Raise (CodecError "unsupported value");
  uncompress := fun compressed _ => Ok compressed
|}.

(** Collaborators whose kernel pads its input with zero bytes up to the
    expected size. *)
Definition padded : Externals := {|
  sys_byteorder := LittleEndian;
  MAX_PROTOCOL_VERSION := 3;
  str_encode := fun text _ => Ok (latin1 text);
  serialize := fun _ _ _ => Raise (CodecError "unsupported value");
  deserialize := fun _ _ _ => Raise (CodecError "unsupported value");
  uncompress := fun compressed expected =>
    Ok (take (Z.to_nat expected) (compressed ++ repeat x00 (Z.to_nat expected)))
|}.

(** A RESPONSE frame of 9 bytes with the payload [*]. *)
Definition response : bytes := [x01; x02; x00; x00; x09; x00; x00; x00; x2a].

(** A loop whose only transport has the given bytes in its buffer, with
    nothing sent, and the same after the handshake frame has been sent. *)
Definition buffered (data : bytes) : Loop := mkLoop [mkTransport [] false data []] [].
Definition opened_with (data : bytes) : Loop :=
  mkLoop [mkTransport handshake_frame false data []] [].

(** The frame writer of the opened connection. *)
Definition opened_writer : QWriter.t := QWriter.mk (Some 0%nat) (Some 3) "latin-1" [].

End Harness.

(** ** Predicates on effects *)

(** [l'] differs from [l] at most by bytes appended to what transports
    have sent: no transport is added, closed or read from, and no
    connection attempt is made. *)
Definition sends_only (l l' : Loop) : Prop :=
  network l' = network l /\
  List.length (transports l') = List.length (transports l) /\
  forall (i : nat) (t : Transport),
    transports l !! i = Some t ->
    exists (t' : Transport) (extra : bytes),
      transports l' !! i = Some t' /\
      sent t' = (sent t ++ extra)%list /\
      closing t' = closing t /\ buffer t' = buffer t /\ arriving t' = arriving t.

(** A reader computation that, run on a reader without a stream, leaves
    the event loop as it is and the reader without a stream. *)
Definition quiet {A} (m : M QReader.State A) : Prop :=
  forall (r : QReader.t) (l : Loop),
    QReader._stream r = None ->
    snd (snd (m (r, l))) = l /\ QReader._stream (fst (snd (m (r, l)))) = None.

(** * Properties *)

(** ** Bytes and integers *)

Lemma byte_val_range (b : byte) : 0 <= byte_val b < 256.
Proof. unfold byte_val. pose proof (Byte.to_N_bounded b). lia. Qed.

Lemma byte_of_val (z : Z) :
  0 <= z < 256 -> exists b, Byte.of_N (Z.to_N z) = Some b /\ byte_val b = z.
Proof.
  intros Hz. destruct (Byte.of_N (Z.to_N z)) as [b|] eqn:E.
  - exists b. split; [done|]. unfold byte_val. apply Byte.to_of_N in E. lia.
  - apply Byte.of_N_None_iff in E. lia.
Qed.

Lemma le_value_single (b : byte) : le_value [b] = byte_val b.
Proof. simpl. by rewrite Z.shiftl_0_l, Z.lor_0_r. Qed.

Lemma unpack_unsigned_single (e : Endianness) (b : byte) :
  unpack_unsigned e [b] = byte_val b.
Proof. destruct e; apply le_value_single. Qed.

(** The only byte whose value is 1 is [x01]. *)
Lemma marker_is_1 (b : byte) : byte_val b = 1 <-> b = x01.
Proof.
  split; [|by intros ->].
  intros Hb. apply (f_equal Z.to_N) in Hb. unfold byte_val in Hb.
  rewrite N2Z.id in Hb. apply (f_equal Byte.of_N) in Hb.
  rewrite Byte.of_to_N in Hb. simpl in Hb. congruence.
Qed.

(** A byte below a value shifted by eight bits: the bits do not overlap,
    so the disjunction is the sum. *)
Lemma lor_byte_shiftl (a b : Z) :
  0 <= a < 256 -> Z.lor a (Z.shiftl b 8) = a + 256 * b.
Proof.
  intros Ha.
  assert (Hland : Z.land a (Z.shiftl b 8) = 0).
  { apply Z.bits_inj'. intros n Hn. rewrite Z.land_spec, Z.bits_0.
    destruct (Z.lt_ge_cases n 8) as [Hlt|Hge].
    - rewrite Z.shiftl_spec_low by lia. apply andb_false_r.
    - destruct (Z.eq_dec a 0) as [->|Hne]; [by rewrite Z.bits_0|].
      rewrite (Z.bits_above_log2 a n); [done|lia|].
      assert (Z.log2 a < 8) by (apply Z.log2_lt_pow2; lia). lia. }
  rewrite <- Z.lxor_lor by done.
  rewrite <- Z.add_nocarry_lxor by done.
  rewrite (Z.shiftl_mul_pow2 b 8) by lia. change (2 ^ 8) with 256. lia.
Qed.

Lemma le_value_range (bs : bytes) : 0 <= le_value bs < 2 ^ (8 * len bs).
Proof.
  induction bs as [|b bs IH]; [vm_compute; split; [discriminate|reflexivity]|].
  pose proof (byte_val_range b) as Hb.
  change (le_value (b :: bs)) with (Z.lor (byte_val b) (Z.shiftl (le_value bs) 8)).
  rewrite lor_byte_shiftl by done.
  replace (8 * len (b :: bs)) with (8 + 8 * len bs) by (unfold len; simpl; lia).
  rewrite Z.pow_add_r by (unfold len; lia).
  change (2 ^ 8) with 256. nia.
Qed.

(** The 4-byte size field in either byte order. *)
Lemma unpack_unsigned_le4 (s0 s1 s2 s3 : byte) :
  unpack_unsigned LittleEndian [s0; s1; s2; s3] =
    byte_val s0 + 2 ^ 8 * byte_val s1 + 2 ^ 16 * byte_val s2 + 2 ^ 24 * byte_val s3.
Proof.
  pose proof (byte_val_range s0). pose proof (byte_val_range s1).
  pose proof (byte_val_range s2). pose proof (byte_val_range s3).
  unfold unpack_unsigned, le_value.
  rewrite !lor_byte_shiftl by done. lia.
Qed.

Lemma unpack_unsigned_be4 (s0 s1 s2 s3 : byte) :
  unpack_unsigned BigEndian [s0; s1; s2; s3] =
    2 ^ 24 * byte_val s0 + 2 ^ 16 * byte_val s1 + 2 ^ 8 * byte_val s2 + byte_val s3.
Proof.
  pose proof (byte_val_range s0). pose proof (byte_val_range s1).
  pose proof (byte_val_range s2). pose proof (byte_val_range s3).
  unfold unpack_unsigned. change (rev [s0; s1; s2; s3]) with [s3; s2; s1; s0].
  unfold le_value.
  rewrite !lor_byte_shiftl by done. lia.
Qed.

(** ** The transport table *)

Lemma lookup_fresh (ts : list Transport) (t : Transport) :
  (ts ++ [t]) !! List.length ts = Some t.
Proof. by rewrite list_lookup_middle. Qed.

Lemma insert_fresh (ts : list Transport) (t t' : Transport) :
  <[List.length ts := t']> (ts ++ [t]) = ts ++ [t'].
Proof.
  replace (List.length ts) with (List.length ts + 0)%nat by lia.
  by rewrite insert_app_r.
Qed.

Ltac run_streams :=
  repeat (progress (simpl; rewrite ?lookup_fresh, ?insert_fresh)).

Ltac unfold_connection :=
  unfold QConnection.open, QConnection._init_socket, QConnection._initialize,
    QConnection.close, QConnection.on_s_writer, QConnection.on_s_reader,
    QConnection.self, bind, try_except_reraise, on_snd, on_fst, modify, of_result,
    open_connection, StreamWriter.write, StreamWriter.drain, StreamWriter.close,
    StreamWriter.wait_closed, StreamReader.read, set_transport.

(** ** The byte buffer *)

Lemma raw_within (data : bytes) (pos : nat) (e : Endianness) (n : Z) :
  0 <= n -> Z.of_nat pos + n <= len data ->
  BytesBuffer.raw n (BytesBuffer.mk data pos e) =
    (Ok (take (Z.to_nat n) (drop pos data)),
     BytesBuffer.mk data (pos + Z.to_nat n) e).
Proof.
  intros Hn Hlen. unfold BytesBuffer.raw. simpl.
  replace (n <? 0) with false by (symmetry; apply Z.ltb_ge; lia).
  replace (len data <? Z.of_nat pos + n) with false by (symmetry; apply Z.ltb_ge; lia).
  done.
Qed.

(** ** The handshake *)

Section Handshake.
Context `{Externals}.

(** The version offer [bytes([MAX_PROTOCOL_VERSION, 0])] exists when the
    constant fits in a byte. *)
Lemma offer_bytes :
  0 <= MAX_PROTOCOL_VERSION < 256 ->
  exists offered, byte_val offered = MAX_PROTOCOL_VERSION /\
    bytes_of_ints [MAX_PROTOCOL_VERSION; 0] = Ok [offered; x00].
Proof.
  intros Hmax. destruct (byte_of_val _ Hmax) as (offered & Hof & Hval).
  exists offered. split; [done|]. simpl. rewrite Hof.
  replace ((0 <=? MAX_PROTOCOL_VERSION) && (MAX_PROTOCOL_VERSION <? 256)) with true; [done|].
  symmetry. apply andb_true_iff. split; [apply Z.leb_le | apply Z.ltb_lt]; lia.
Qed.

(** C1.  On a connection that is not open yet, with a host, when the
    transport is established and the peer answers the first credential
    frame so that [read(1)] yields the byte [v], [open()] succeeds: the
    frame sent is the credentials, the offered maximum version and a zero
    byte, the negotiated [_protocol_version] is
    [min(v, MAX_PROTOCOL_VERSION)], and the connection is connected. *)
Theorem open_negotiates_on_first_response :
  forall (c : QConnection.t) (l : Loop) (credentials : bytes)
         (segments rest : list bytes) (net : list Outcome) (v : byte) (more : bytes),
    QConnection._s_writer c = None ->
    QConnection.str_truthy (QConnection.host c) = true ->
    str_encode (QConnection.str_or_empty (QConnection.username c) ++ ":"
                ++ QConnection.str_or_empty (QConnection.password c))%string
               (QConnection._encoding c) = Ok credentials ->
    0 <= MAX_PROTOCOL_VERSION < 256 ->
    network l = Accept segments :: net ->
    wait_for_data segments = (v :: more, rest) ->
    exists c' l' offered,
      QConnection.open (c, l) = (Ok tt, (c', l')) /\
      QConnection._protocol_version c' = Some (Z.min (byte_val v) MAX_PROTOCOL_VERSION) /\
      QConnection.is_connected c' = true /\
      byte_val offered = MAX_PROTOCOL_VERSION /\
      transports l' =
        transports l ++ [mkTransport (credentials ++ [offered; x00]) false more rest].
Proof.
  intros c l credentials segments rest net v more Hw Hh Henc Hmax Hnet Hseg.
  destruct (offer_bytes Hmax) as (offered & Hval & Hoffer).
  destruct c as [host port username password enc opts sr sw pv wr rd].
  destruct l as [ts nw]. simpl in Hw, Hh, Henc, Hnet. subst sw nw.
  eexists _, _, offered.
  unfold_connection. cbn -[bytes_of_ints]. rewrite Hh. cbn -[bytes_of_ints].
  rewrite Henc, Hoffer.
  run_streams. rewrite Hseg. run_streams.
  repeat split; done.
Qed.

(** C2.  When the peer returns no byte to the first credential frame,
    [open()] does not reach the legacy retry: the first transport is
    closed and [await self._s_writer.close()] raises [TypeError].  No
    second transport is established (the network's next answer is not
    consumed), no legacy frame is sent, and no protocol version is set,
    whatever the peer would have answered to the retry. *)
Theorem open_fallback_raises_TypeError :
  forall (c : QConnection.t) (l : Loop) (credentials : bytes)
         (segments rest : list bytes) (net : list Outcome),
    QConnection._s_writer c = None ->
    QConnection.str_truthy (QConnection.host c) = true ->
    str_encode (QConnection.str_or_empty (QConnection.username c) ++ ":"
                ++ QConnection.str_or_empty (QConnection.password c))%string
               (QConnection._encoding c) = Ok credentials ->
    0 <= MAX_PROTOCOL_VERSION < 256 ->
    network l = Accept segments :: net ->
    wait_for_data segments = ([], rest) ->
    exists c' l' offered,
      QConnection.open (c, l) =
        (Raise (TypeError "object NoneType can't be used in 'await' expression"),
         (c', l')) /\
      transports l' =
        transports l ++ [mkTransport (credentials ++ [offered; x00]) true [] rest] /\
      network l' = net /\
      QConnection._protocol_version c' = QConnection._protocol_version c.
Proof.
  intros c l credentials segments rest net Hw Hh Henc Hmax Hnet Hseg.
  destruct (offer_bytes Hmax) as (offered & Hval & Hoffer).
  destruct c as [host port username password enc opts sr sw pv wr rd].
  destruct l as [ts nw]. simpl in Hw, Hh, Henc, Hnet. subst sw nw.
  eexists _, _, offered.
  unfold_connection. cbn -[bytes_of_ints]. rewrite Hh. cbn -[bytes_of_ints].
  rewrite Henc, Hoffer.
  run_streams. rewrite Hseg. run_streams.
  repeat split; done.
Qed.

(** C10.  When the transport cannot be established during [open()], the
    exception of [asyncio.open_connection] propagates with both stream
    handles reset to [None]: [is_connected()] is false afterwards, no
    transport was added, and a connection that had no reader handle
    before is left exactly as it was. *)
Theorem open_refused_resets_handles :
  forall (c : QConnection.t) (l l' : Loop) (e : exn),
    QConnection._s_writer c = None ->
    QConnection.str_truthy (QConnection.host c) = true ->
    open_connection (QConnection.host c) (QConnection.port c) l = (Raise e, l') ->
    exists c',
      QConnection.open (c, l) = (Raise e, (c', l')) /\
      QConnection._s_reader c' = None /\
      QConnection._s_writer c' = None /\
      QConnection.is_connected c' = false /\
      transports l' = transports l /\
      (QConnection._s_reader c = None -> c' = c).
Proof.
  intros c l l' e Hw Hh Hopen.
  exists (QConnection.set_streams None None c).
  assert (Hts : transports l' = transports l).
  { unfold open_connection in Hopen.
    destruct (network l) as [|[segments|e'] rest]; inversion Hopen; done. }
  split.
  - unfold QConnection.open, QConnection._init_socket, bind, QConnection.self,
      try_except_reraise, on_snd.
    simpl. rewrite Hw, Hh. simpl. rewrite Hopen. done.
  - repeat split; try done.
    intros Hr. destruct c. simpl in *. by subst.
Qed.

(** C3.  When the peer returns no byte on either attempt, [open()] fails
    at the first empty answer with [TypeError], which is not an
    authentication error; the first transport has been closed, the second
    attempt is never made, and [is_connected()] is still true afterwards
    because the handle of the closed stream stays in [_s_writer]. *)
Theorem open_rejected_twice_stays_connected :
  forall (c : QConnection.t) (l : Loop) (credentials : bytes)
         (segments1 segments2 rest1 rest2 : list bytes) (net : list Outcome),
    QConnection._s_writer c = None ->
    QConnection.str_truthy (QConnection.host c) = true ->
    str_encode (QConnection.str_or_empty (QConnection.username c) ++ ":"
                ++ QConnection.str_or_empty (QConnection.password c))%string
               (QConnection._encoding c) = Ok credentials ->
    0 <= MAX_PROTOCOL_VERSION < 256 ->
    network l = Accept segments1 :: Accept segments2 :: net ->
    wait_for_data segments1 = ([], rest1) ->
    wait_for_data segments2 = ([], rest2) ->
    exists (c' : QConnection.t) (l' : Loop) (e : exn) (t : Transport),
      QConnection.open (c, l) = (Raise e, (c', l')) /\
      e = TypeError "object NoneType can't be used in 'await' expression" /\
      kind_of e <> AuthenticationError /\
      QConnection.is_connected c' = true /\
      QConnection._s_writer c' = Some (List.length (transports l)) /\
      transports l' = transports l ++ [t] /\
      closing t = true /\
      network l' = Accept segments2 :: net.
Proof.
  intros c l credentials segments1 segments2 rest1 rest2 net Hw Hh Henc Hmax Hnet Hs1 Hs2.
  destruct (offer_bytes Hmax) as (offered & Hval & Hoffer).
  destruct c as [host port username password enc opts sr sw pv wr rd].
  destruct l as [ts nw]. simpl in Hw, Hh, Henc, Hnet. subst sw nw.
  eexists _, _, _, _.
  unfold_connection. cbn -[bytes_of_ints]. rewrite Hh. cbn -[bytes_of_ints].
  rewrite Henc, Hoffer.
  run_streams. rewrite Hs1. run_streams.
  repeat split; done.
Qed.

End Handshake.

(** ** The life cycle *)

(** [is_connected()] is true exactly when [_s_writer] holds a stream. *)
Lemma is_connected_iff_handle (c : QConnection.t) :
  QConnection.is_connected c = true <-> exists s, QConnection._s_writer c = Some s.
Proof.
  unfold QConnection.is_connected.
  destruct (QConnection._s_writer c) as [s|]; simpl; split.
  - eauto.
  - done.
  - discriminate.
  - intros [s Hs]. discriminate.
Qed.

(** [close()] on a connection that holds a stream: the transport is
    closed and the connection object is not touched. *)
Lemma close_on_open_stream (c : QConnection.t) (l : Loop) (s : stream) (t : Transport) :
  QConnection._s_writer c = Some s ->
  transports l !! s = Some t ->
  QConnection.close (c, l) =
    (Ok tt, (c, set_transport s (mkTransport (sent t) true (buffer t) (arriving t)) l)).
Proof.
  intros Hw Ht.
  assert (Hlt : (s < List.length (transports l))%nat) by (by eapply lookup_lt_Some).
  unfold_connection.
  repeat (progress (simpl; rewrite ?Hw, ?Ht)).
  by rewrite list_lookup_insert_eq.
Qed.

(** C4.  After [close()] completes on an open connection the stream
    handle is still in place: the connection object is unchanged,
    [_s_writer] holds the closed stream and [is_connected()] returns
    true.  A further [close()] succeeds and changes nothing more. *)
Theorem close_keeps_stream_handle :
  forall (c : QConnection.t) (l : Loop) (s : stream) (t : Transport),
    QConnection._s_writer c = Some s ->
    transports l !! s = Some t ->
    exists (c' : QConnection.t) (l' : Loop),
      QConnection.close (c, l) = (Ok tt, (c', l')) /\
      c' = c /\
      QConnection._s_writer c' = Some s /\
      QConnection.is_connected c' = true /\
      transports l' !! s = Some (mkTransport (sent t) true (buffer t) (arriving t)) /\
      QConnection.close (c', l') = (Ok tt, (c', l')).
Proof.
  intros c l s t Hw Ht.
  assert (Hlt : (s < List.length (transports l))%nat) by (by eapply lookup_lt_Some).
  assert (Ht' : transports
                  (set_transport s (mkTransport (sent t) true (buffer t) (arriving t)) l)
                  !! s = Some (mkTransport (sent t) true (buffer t) (arriving t))).
  { simpl. by rewrite list_lookup_insert_eq. }
  eexists c, _. split; [by apply close_on_open_stream|].
  repeat split; try done.
  - unfold QConnection.is_connected. by rewrite Hw.
  - rewrite (close_on_open_stream _ _ _ _ Hw Ht'). simpl.
    unfold set_transport. simpl. by rewrite list_insert_insert_eq.
Qed.

(** The rejection path of the handshake, [await self.close()] followed by
    [raise QAuthenticationException]: the transport is closed before the
    error surfaces, and the handle stays. *)
Lemma rejection_keeps_stream_handle (c : QConnection.t) (l : Loop) (s : stream)
    (t : Transport) :
  QConnection._s_writer c = Some s ->
  transports l !! s = Some t ->
  exists l',
    (QConnection.close ;;
     @raise QConnection.State unit (QAuthenticationException "Connection denied."))
      (c, l)
    = (Raise (QAuthenticationException "Connection denied."), (c, l')) /\
    transports l' !! s = Some (mkTransport (sent t) true (buffer t) (arriving t)) /\
    QConnection.is_connected c = true.
Proof.
  intros Hw Ht.
  assert (Hlt : (s < List.length (transports l))%nat) by (by eapply lookup_lt_Some).
  eexists. unfold bind. rewrite (close_on_open_stream _ _ _ _ Hw Ht).
  split; [reflexivity|]. split.
  - simpl. by rewrite list_lookup_insert_eq.
  - unfold QConnection.is_connected. by rewrite Hw.
Qed.

(** ** Queries *)

Section Queries.
Context `{Externals}.

(** X18.  [query] checks before it writes, and what it checks is the
    stream handle.  Without a handle it raises [QConnectionException] (a
    ConnectionError); with one and more than 8 parameters it raises
    [QWriterException] (a ProtocolError); in both cases the connection and
    every transport are as before, so no byte has been written.  With a
    handle and at most 8 parameters both checks pass and the call is the
    frame writer's [write] of the bare query or of the list
    [query :: parameters]. *)
Theorem query_checks_before_write :
  forall (msg_type : Z) (q : pyobj) (parameters : list pyobj) (options : Options)
         (c : QConnection.t) (l : Loop),
    (QConnection.is_connected c = false ->
     exists e, QConnection.query msg_type q parameters options (c, l) = (Raise e, (c, l)) /\
       e = QConnectionException "Connection is not established." /\
       kind_of e = ConnectionError) /\
    (QConnection.is_connected c = true -> 8 < len parameters ->
     exists e, QConnection.query msg_type q parameters options (c, l) = (Raise e, (c, l)) /\
       e = QWriterException "Too many parameters." /\
       kind_of e = ProtocolError) /\
    (QConnection.is_connected c = true -> len parameters <= 8 ->
     QConnection.query msg_type q parameters options (c, l) =
       (QConnection.on_writer
          (QWriter.write (match parameters with
                          | [] => q
                          | _ :: _ => PyList (q :: parameters)
                          end)
                         msg_type (union_dict (QConnection._options c) options)) ;;
        ret tt)%py (c, l)).
Proof.
  intros msg_type q parameters options c l.
  unfold QConnection.is_connected.
  assert (Hq : QConnection.query msg_type q parameters options (c, l) =
    (if negb (truthy (QConnection._s_writer c)) then
       raise (QConnectionException "Connection is not established.")
     else if negb (0 =? len parameters) && (8 <? len parameters) then
       raise (QWriterException "Too many parameters.")
     else if (0 =? len parameters) || (len parameters =? 0) then
       QConnection.on_writer (QWriter.write q msg_type
                                (union_dict (QConnection._options c) options)) ;; ret tt
     else
       QConnection.on_writer (QWriter.write (PyList (q :: parameters)) msg_type
                                (union_dict (QConnection._options c) options)) ;; ret tt)%py
      (c, l)) by reflexivity.
  rewrite Hq. clear Hq.
  destruct (truthy (QConnection._s_writer c)); cbn [negb].
  - split; [discriminate|]. split.
    + intros _ Hlen.
      replace (0 =? len parameters) with false by (symmetry; apply Z.eqb_neq; lia).
      replace (8 <? len parameters) with true by (symmetry; apply Z.ltb_lt; lia).
      cbn [negb andb]. unfold raise. eauto.
    + intros _ Hlen.
      replace (8 <? len parameters) with false by (symmetry; apply Z.ltb_ge; lia).
      rewrite andb_false_r.
      destruct parameters as [|p ps]; [done|].
      replace (0 =? len (p :: ps)) with false
        by (symmetry; apply Z.eqb_neq; unfold len; simpl; lia).
      replace (len (p :: ps) =? 0) with false
        by (symmetry; apply Z.eqb_neq; unfold len; simpl; lia).
      done.
  - split; [unfold raise; eauto|]. split; discriminate.
Qed.

End Queries.

Section Synchronous.
Context `{Externals}.

(** C6.  When the query has been written and the message received is not
    a RESPONSE, [sendSync] raises [QReaderException] in the very state the
    receive left: connection, reader, writer and every transport are as
    they were when the message had been read, so nothing has been written
    back to the peer, whatever the kind of the unexpected message.  When
    the message is a RESPONSE its data is returned. *)
Theorem sendSync_unexpected_kind_writes_nothing_back :
  forall (q : pyobj) (parameters : list pyobj) (options : Options)
         (st st1 st2 : QConnection.State) (m : QMessage.t),
    QConnection.query MessageType.SYNC q parameters options st = (Ok tt, st1) ->
    QConnection.receive false options st1 = (Ok (inr m), st2) ->
    QConnection.sendSync q parameters options st =
      if QMessage.type m =? MessageType.RESPONSE then (Ok (QMessage.data m), st2)
      else (Raise (QReaderException
                     "Received message of type: %s where response was expected"), st2).
Proof.
  intros q parameters options st st1 st2 m Hquery Hreceive.
  unfold QConnection.sendSync.
  unfold bind at 1. rewrite Hquery.
  unfold bind at 1. rewrite Hreceive.
  destruct (QMessage.type m =? MessageType.RESPONSE); reflexivity.
Qed.

End Synchronous.

(** The bytes on the wire of three exchanges that differ in the kind of
    the peer's message: the handshake frame and the query frame, and
    nothing after them. *)
Lemma sync_exchange_sends_two_frames :
  exists (c0 c1 c2 : QConnection.t),
    let after := mkLoop [mkTransport (Harness.handshake_frame ++ Harness.query_frame)
                           false [] []] [] in
    Harness.sync_exchange x00 =
      (Raise (QReaderException "Received message of type: %s where response was expected"),
       (c0, after)) /\
    Harness.sync_exchange x01 =
      (Raise (QReaderException "Received message of type: %s where response was expected"),
       (c1, after)) /\
    Harness.sync_exchange x02 = (Ok (PyBytes [x2a]), (c2, after)).
Proof.
  eexists _, _, _. cbv zeta. split; [|split]; vm_compute; reflexivity.
Qed.

(** ** The frame header *)

Section Header.
Context `{Externals}.

(** The header fields, once the eight bytes are wrapped in the buffer. *)
Lemma header_fields (marker kind mode ext s0 s1 s2 s3 : byte) (more : bytes)
    (r : QReader.t) (l : Loop) :
  BytesBuffer.data (QReader._buffer r) = [marker; kind; mode; ext; s0; s1; s2; s3] ++ more ->
  BytesBuffer.position (QReader._buffer r) = 0%nat ->
  let e := if byte_val marker =? 1 then LittleEndian else BigEndian in
  (marker <- QReader.on_buffer BytesBuffer.get_byte ;;
   QReader.on_buffer (BytesBuffer.set_endianness
                        (if marker =? 1 then LittleEndian else BigEndian)) ;;
   r <- QReader.self ;;
   on_fst (modify (QReader.set_is_native
                     (Endianness_eqb (BytesBuffer.endianness (QReader._buffer r))
                        sys_byteorder))) ;;
   message_type <- QReader.on_buffer BytesBuffer.get_byte ;;
   message_compression_mode <- QReader.on_buffer BytesBuffer.get_byte ;;
   message_size_ext <- QReader.on_buffer BytesBuffer.get_byte ;;
   message_size <- QReader.on_buffer BytesBuffer.get_uint ;;
   let message_size := message_size + Z.shiftl message_size_ext 32 in
   ret (QMessage.mk PyNone message_type message_size message_compression_mode))%py (r, l)
  = (Ok (QMessage.mk PyNone (byte_val kind)
           (unpack_unsigned e [s0; s1; s2; s3] + Z.shiftl (byte_val ext) 32)
           (byte_val mode)),
     (QReader.mk (QReader._stream r) (QReader._encoding r)
        (BytesBuffer.mk ([marker; kind; mode; ext; s0; s1; s2; s3] ++ more) 8 e)
        (Endianness_eqb e sys_byteorder) (QReader._options r), l)).
Proof.
  intros Hdata Hpos e.
  destruct r as [st enc [data pos en] nat opts]. simpl in Hdata, Hpos. subst data pos.
  unfold bind, QReader.on_buffer, BytesBuffer.get_byte, BytesBuffer.get_uint,
    BytesBuffer.set_endianness, QReader.self, on_fst, modify, get, ret, bind.
  Opaque unpack_unsigned Z.shiftl.
  repeat (progress (simpl; rewrite ?raw_within by (unfold len; simpl; lia))).
  Transparent unpack_unsigned Z.shiftl.
  rewrite !unpack_unsigned_single.
  reflexivity.
Qed.

(** C7.  For every 8-byte header, whether read from the stream or found at
    the start of the supplied chunk, [read_header] sets the buffer's
    endianness to little-endian exactly when byte 0 is 1 and to big-endian
    for every other value, and returns the message kind and compression
    mode of bytes 1 and 2 and, as size, the 4-byte field of bytes 4 to 7
    in that endianness plus byte 3 shifted left by 32 bits. *)
Theorem read_header_endianness_and_size :
  forall (marker kind mode ext s0 s1 s2 s3 : byte) (source : option bytes)
         (r : QReader.t) (l : Loop),
    let header := [marker; kind; mode; ext; s0; s1; s2; s3] in
    match QReader._stream r with
    | Some _ => exists l', QReader._read_bytes 8 (r, l) = (Ok header, (r, l'))
    | None => exists more, source = Some (header ++ more)
    end ->
    exists (e : Endianness) (st' : QReader.State),
      QReader.read_header source (r, l) =
        (Ok (QMessage.mk PyNone (byte_val kind)
               (unpack_unsigned e [s0; s1; s2; s3] + Z.shiftl (byte_val ext) 32)
               (byte_val mode)), st') /\
      BytesBuffer.endianness (QReader._buffer (fst st')) = e /\
      (e = LittleEndian <-> marker = x01) /\
      (e = BigEndian <-> marker <> x01).
Proof.
  intros marker kind mode ext s0 s1 s2 s3 source r l header Hsrc.
  exists (if byte_val marker =? 1 then LittleEndian else BigEndian).
  assert (He : ((if byte_val marker =? 1 then LittleEndian else BigEndian) = LittleEndian
                <-> marker = x01) /\
               ((if byte_val marker =? 1 then LittleEndian else BigEndian) = BigEndian
                <-> marker <> x01)).
  { rewrite <- marker_is_1. destruct (Z.eqb_spec (byte_val marker) 1); split; split; try done. }
  unfold QReader.read_header.
  unfold bind at 1. unfold QReader.self at 1. cbn [fst].
  destruct (QReader._stream r) as [s|] eqn:Hs; cbn [truthy].
  - destruct Hsrc as (l' & Hread).
    unfold bind at 1. unfold bind at 1. rewrite Hread.
    unfold QReader.on_buffer at 1, BytesBuffer.wrap, modify. cbn [fst snd].
    eexists. split; [|split; [|exact He]].
    + apply (header_fields marker kind mode ext s0 s1 s2 s3 []); reflexivity.
    + destruct r; reflexivity.
  - destruct Hsrc as (more & ->).
    unfold bind at 1.
    unfold QReader.on_buffer at 1, BytesBuffer.wrap, modify. cbn [fst snd].
    eexists. split; [|split; [|exact He]].
    + apply (header_fields marker kind mode ext s0 s1 s2 s3 more); reflexivity.
    + destruct r; reflexivity.
Qed.

End Header.

(** ** Byte acquisition *)

(** Zero bytes: the empty result, and neither the reader nor any stream is
    touched. *)
Lemma read_bytes_zero (r : QReader.t) (l : Loop) (s : stream) :
  QReader._stream r = Some s ->
  QReader._read_bytes 0 (r, l) = (Ok [], (r, l)).
Proof. intros Hs. unfold QReader._read_bytes, bind, QReader.self. simpl. by rewrite Hs. Qed.

(** X11.  [n > 0] bytes from a stream at end of file with nothing
    buffered: [QReaderException], and the reader object is as it was. *)
Lemma read_bytes_exhausted (r : QReader.t) (l : Loop) (s : stream) (t : Transport) (n : Z) :
  QReader._stream r = Some s ->
  transports l !! s = Some t ->
  buffer t = [] -> wait_for_data (arriving t) = ([], []) ->
  0 < n ->
  exists l', QReader._read_bytes n (r, l) =
    (Raise (QReaderException "Error while reading data"), (r, l')).
Proof.
  intros Hs Ht Hb Hw Hn.
  unfold QReader._read_bytes, bind, QReader.self, on_snd, StreamReader.read. simpl.
  rewrite Hs. replace (n =? 0) with false by (symmetry; apply Z.eqb_neq; lia).
  simpl. rewrite Ht. replace (n =? 0) with false by (symmetry; apply Z.eqb_neq; lia).
  replace (n <? 0) with false by (symmetry; apply Z.ltb_ge; lia).
  rewrite Hb, Hw. rewrite take_nil. simpl. eauto.
Qed.

(** C9.  A short read is returned as the result: when the stream's next
    segment holds fewer than the [n] bytes requested (and at least one),
    [_read_bytes(n)] returns that segment without an error, and the rest
    of the peer's bytes stay in the stream. *)
Theorem read_bytes_returns_short_read :
  forall (r : QReader.t) (l : Loop) (s : stream) (t : Transport)
         (segment : bytes) (later : list bytes) (n : Z),
    QReader._stream r = Some s ->
    transports l !! s = Some t ->
    buffer t = [] ->
    wait_for_data (arriving t) = (segment, later) ->
    0 < len segment < n ->
    exists l',
      QReader._read_bytes n (r, l) = (Ok segment, (r, l')) /\
      transports l' !! s = Some (mkTransport (sent t) (closing t) [] later).
Proof.
  intros r l s t segment later n Hs Ht Hb Hw Hn.
  assert (Hlt : (s < List.length (transports l))%nat) by (by eapply lookup_lt_Some).
  unfold QReader._read_bytes, bind, QReader.self, on_snd, StreamReader.read. simpl.
  rewrite Hs. replace (n =? 0) with false by (symmetry; apply Z.eqb_neq; lia).
  simpl. rewrite Ht. replace (n =? 0) with false by (symmetry; apply Z.eqb_neq; lia).
  replace (n <? 0) with false by (symmetry; apply Z.ltb_ge; lia).
  rewrite Hb, Hw.
  rewrite take_ge by (unfold len in Hn; lia).
  rewrite drop_ge by (unfold len in Hn; lia).
  replace (len segment =? 0) with false by (symmetry; apply Z.eqb_neq; lia).
  eexists. split; [reflexivity|]. simpl.
  by rewrite list_lookup_insert_eq.
Qed.

(** A read of as many bytes as the stream's buffer already holds in front:
    exactly those bytes. *)
Lemma read_bytes_buffered (r : QReader.t) (l : Loop) (s : stream) (t : Transport)
    (wanted rest : bytes) :
  QReader._stream r = Some s ->
  transports l !! s = Some t ->
  buffer t = (wanted ++ rest)%list ->
  0 < len wanted ->
  QReader._read_bytes (len wanted) (r, l) =
    (Ok wanted,
     (r, set_transport s (mkTransport (sent t) (closing t) rest (arriving t)) l)).
Proof.
  intros Hs Ht Hb Hn.
  unfold QReader._read_bytes, bind, QReader.self, on_snd, StreamReader.read. simpl.
  rewrite Hs. replace (len wanted =? 0) with false by (symmetry; apply Z.eqb_neq; lia).
  simpl. rewrite Ht. replace (len wanted =? 0) with false by (symmetry; apply Z.eqb_neq; lia).
  replace (len wanted <? 0) with false by (symmetry; apply Z.ltb_ge; lia).
  rewrite Hb. unfold len. rewrite Nat2Z.id.
  destruct wanted as [|b wanted']; [unfold len in Hn; simpl in Hn; lia|].
  change ((b :: wanted') ++ rest)%list with (b :: (wanted' ++ rest))%list. cbv beta iota.
  change (b :: (wanted' ++ rest))%list with ((b :: wanted') ++ rest)%list.
  rewrite take_app_length, drop_app_length.
  replace (Z.of_nat (List.length (b :: wanted')) =? 0) with false
    by (symmetry; apply Z.eqb_neq; simpl; lia).
  done.
Qed.

(** ** The compression envelope *)

Section Compression.
Context `{Externals}.

(** X14.  The envelope when the whole message is already in the stream's
    buffer: a header of 4 bytes for mode 1 and of 8 bytes otherwise, the
    uncompressed size the header field minus 8, [QReaderException] when
    that is not positive, and otherwise the block of
    [message_size - 8 - header_len] bytes handed to the kernel. *)
Lemma read_data_compressed_buffered (r : QReader.t) (l : Loop) (s : stream) (t : Transport)
    (message_size compression_mode : Z) (options : Options) (header block rest : bytes) :
  QReader._stream r = Some s ->
  transports l !! s = Some t ->
  buffer t = (header ++ block ++ rest)%list ->
  0 < compression_mode ->
  len header = (if compression_mode =? 1 then 4 else 8) ->
  len block = message_size - (8 + len header) ->
  0 < len block ->
  let e := BytesBuffer.endianness (QReader._buffer r) in
  let field := if compression_mode =? 1 then unpack_unsigned e header
               else unpack_signed e header in
  fst (QReader.read_data message_size compression_mode options (r, l)) =
    if -8 + field <=? 0 then Raise (QReaderException "Error while data decompression.")
    else match uncompress block (-8 + field) with
         | Ok raw_data =>
             if raw options then Ok (PyBytes raw_data)
             else deserialize (BytesBuffer.mk raw_data 0 e) (QReader._is_native r) options
         | Raise err => Raise err
         end.
Proof.
  intros Hs Ht Hb Hmode Hhdr Hblock Hpos e field.
  assert (Hhpos : 0 < len header) by (destruct (compression_mode =? 1); lia).
  assert (Hlt : (s < List.length (transports l))%nat) by (by eapply lookup_lt_Some).
  unfold QReader.read_data, QReader.super_read_data.
  unfold bind at 1. unfold on_fst at 1, modify at 1. cbn [fst snd].
  unfold bind at 1. unfold QReader.self at 1. cbn [fst snd].
  replace (0 <? compression_mode) with true by (symmetry; apply Z.ltb_lt; lia).
  cbn [QReader.set_options QReader._stream]. rewrite Hs. cbn [truthy negb andb].
  rewrite <- Hhdr.
  replace (message_size - (8 + len header)) with (len block) by lia.
  unfold bind at 1. unfold bind at 1. unfold bind at 1. unfold bind at 1.
  erewrite read_bytes_buffered; [| done | exact Ht | exact Hb | done].
  assert (Hfield :
    QReader.on_buffer (if compression_mode =? 1 then BytesBuffer.get_uint
                       else BytesBuffer.get_long)
      (QReader.set_buffer (BytesBuffer.mk header 0 e) (QReader.set_options options r),
       set_transport s (mkTransport (sent t) (closing t) (block ++ rest) (arriving t)) l)
    = (Ok field,
       (QReader.set_buffer (BytesBuffer.mk header (Z.to_nat (len header)) e)
          (QReader.set_options options r),
        set_transport s (mkTransport (sent t) (closing t) (block ++ rest) (arriving t)) l))).
  { unfold QReader.on_buffer, field. cbn [fst snd QReader._buffer QReader.set_buffer].
    destruct (compression_mode =? 1);
      unfold BytesBuffer.get_uint, BytesBuffer.get_long, bind, get, ret;
      rewrite <- Hhdr; (rewrite raw_within by (simpl; lia));
      unfold len; rewrite Nat2Z.id, drop_0, firstn_all; reflexivity. }
  unfold QReader.on_buffer at 1, BytesBuffer.wrap at 1, modify at 1.
  cbn [fst snd QReader._buffer QReader.set_buffer QReader.set_options
       BytesBuffer.endianness].
  fold e.
  change (QReader.mk (QReader._stream r) (QReader._encoding r)
            (BytesBuffer.mk header 0 e) (QReader._is_native r) options)
    with (QReader.set_buffer (BytesBuffer.mk header 0 e) (QReader.set_options options r)).
  rewrite Hfield. clear Hfield.
  unfold bind at 1.
  erewrite read_bytes_buffered;
    [| exact Hs | apply list_lookup_insert_eq; exact Hlt | reflexivity | done].
  destruct (-8 + field <=? 0); [reflexivity|].
  unfold bind, of_result.
  destruct (uncompress block (-8 + field)) as [raw_data|err]; [|reflexivity].
  unfold QReader.on_buffer, BytesBuffer.wrap, modify, ret, QReader.self.
  cbn [fst snd QReader._buffer QReader.set_buffer QReader.set_options
       BytesBuffer.endianness QReader._options QReader._is_native].
  destruct (raw options); reflexivity.
Qed.

(** C8.  A compressed message of mode 1 and size 22 whose 4-byte
    compression header and 10-byte block reach the reader in three
    segments (4, 5 and 5 bytes): [read_data] reads the header, finds the
    uncompressed size [18 - 8 = 10], then hands the kernel the 5 bytes the
    second segment holds, not the 10 bytes of [22 - 8 - 4]; the other 5
    bytes stay unread in the stream. *)
Theorem read_data_compressed_short_block :
  exists st' : QReader.State,
    QReader.read_data 22 1 [("raw"%string, true)]
      (Harness.stream_reader,
       Harness.delivering [[x12; x00; x00; x00];
                           [x61; x62; x63; x64; x65];
                           [x66; x67; x68; x69; x6a]])
    = (match uncompress [x61; x62; x63; x64; x65] 10 with
       | Ok raw_data => Ok (PyBytes raw_data)
       | Raise err => Raise err
       end, st') /\
    transports (snd st') = [mkTransport [] false [] [[x66; x67; x68; x69; x6a]]].
Proof.
  unfold QReader.read_data, QReader.super_read_data, QReader._read_bytes, bind,
    QReader.self, QReader.on_buffer, on_snd, on_fst, modify, of_result, ret.
  simpl.
  match goal with |- context [uncompress ?block ?n] => change n with 10 end.
  destruct (uncompress [x61; x62; x63; x64; x65] 10) as [raw_data|err]; simpl; eauto.
Qed.

End Compression.

(** ** The theorems at concrete inputs *)

(** A peer that answers the handshake with version 2 to a client that
    offers 3: version 2 is negotiated. *)
Lemma open_negotiates_on_first_response_witness :
  exists c' l' offered,
    @QConnection.open Harness.stub (Harness.fresh, Harness.loop [Accept [[x02]]])
      = (Ok tt, (c', l')) /\
    QConnection._protocol_version c' = Some (Z.min (byte_val x02) 3) /\
    QConnection.is_connected c' = true /\
    byte_val offered = 3 /\
    transports l' = [mkTransport (Harness.latin1 ":" ++ [offered; x00]) false [] []].
Proof.
  apply (@open_negotiates_on_first_response Harness.stub Harness.fresh
           (Harness.loop [Accept [[x02]]]) (Harness.latin1 ":") [[x02]] [] [] x02 []).
  - reflexivity.
  - reflexivity.
  - reflexivity.
  - simpl. lia.
  - reflexivity.
  - reflexivity.
Defined.

(** A peer that closes the first connection without an answer and would
    answer the legacy frame with version 3. *)
Lemma open_fallback_raises_TypeError_witness :
  exists c' l' offered,
    @QConnection.open Harness.stub
      (Harness.fresh, Harness.loop [Accept []; Accept [[x03]]])
      = (Raise (TypeError "object NoneType can't be used in 'await' expression"),
         (c', l')) /\
    transports l' = [mkTransport (Harness.latin1 ":" ++ [offered; x00]) true [] []] /\
    network l' = [Accept [[x03]]] /\
    QConnection._protocol_version c' = None.
Proof.
  apply (@open_fallback_raises_TypeError Harness.stub Harness.fresh
           (Harness.loop [Accept []; Accept [[x03]]]) (Harness.latin1 ":")
           [] [] [Accept [[x03]]]).
  - reflexivity.
  - reflexivity.
  - reflexivity.
  - simpl. lia.
  - reflexivity.
  - reflexivity.
Defined.

(** Nobody listens: the connection attempt is refused. *)
Lemma open_refused_resets_handles_witness :
  exists c',
    @QConnection.open Harness.stub (Harness.fresh, Harness.loop [Refuse (OSError 111)])
      = (Raise (OSError 111), (c', Harness.loop [])) /\
    QConnection._s_reader c' = None /\
    QConnection._s_writer c' = None /\
    QConnection.is_connected c' = false /\
    transports (Harness.loop []) = transports (Harness.loop [Refuse (OSError 111)]) /\
    (QConnection._s_reader Harness.fresh = None -> c' = Harness.fresh).
Proof.
  apply (@open_refused_resets_handles Harness.stub Harness.fresh
           (Harness.loop [Refuse (OSError 111)]) (Harness.loop []) (OSError 111)).
  - reflexivity.
  - reflexivity.
  - reflexivity.
Defined.

(** [close()] on the opened connection. *)
Lemma close_keeps_stream_handle_witness :
  exists (c' : QConnection.t) (l' : Loop),
    QConnection.close Harness.opened = (Ok tt, (c', l')) /\
    c' = fst Harness.opened /\
    QConnection._s_writer c' = Some 0%nat /\
    QConnection.is_connected c' = true /\
    transports l' !! 0%nat = Some (mkTransport Harness.handshake_frame true [] []) /\
    QConnection.close (c', l') = (Ok tt, (c', l')).
Proof.
  apply (close_keeps_stream_handle (fst Harness.opened) (snd Harness.opened) 0%nat
           (mkTransport Harness.handshake_frame false [] [])).
  - reflexivity.
  - reflexivity.
Defined.

(** [query] on a fresh connection, and on the opened one with nine
    parameters and with one. *)
Lemma query_checks_before_write_witness :
  (exists e,
     @QConnection.query Harness.stub MessageType.SYNC (PyStr "f") [] []
       (Harness.fresh, Harness.loop [])
       = (Raise e, (Harness.fresh, Harness.loop [])) /\
     e = QConnectionException "Connection is not established." /\
     kind_of e = ConnectionError) /\
  (exists e,
     @QConnection.query Harness.stub MessageType.SYNC (PyStr "f")
       Harness.nine_parameters [] Harness.opened
       = (Raise e, Harness.opened) /\
     e = QWriterException "Too many parameters." /\
     kind_of e = ProtocolError) /\
  @QConnection.query Harness.stub MessageType.SYNC (PyStr "f") [PyInt 1] []
    Harness.opened
  = (QConnection.on_writer
       (@QWriter.write Harness.stub (PyList [PyStr "f"; PyInt 1]) MessageType.SYNC []) ;;
     ret tt)%py Harness.opened.
Proof.
  split; [|split].
  - apply (@query_checks_before_write Harness.stub MessageType.SYNC (PyStr "f") [] []
             Harness.fresh (Harness.loop [])).
    reflexivity.
  - apply (@query_checks_before_write Harness.stub MessageType.SYNC (PyStr "f")
             Harness.nine_parameters [] (fst Harness.opened) (snd Harness.opened)).
    + reflexivity.
    + reflexivity.
  - apply (@query_checks_before_write Harness.stub MessageType.SYNC (PyStr "f")
             [PyInt 1] [] (fst Harness.opened) (snd Harness.opened)).
    + reflexivity.
    + unfold len. simpl. lia.
Defined.

(** A little-endian RESPONSE header with size-extension byte 1 and size
    field 9, in front of a one-byte payload. *)
Lemma read_header_endianness_and_size_witness :
  exists (e : Endianness) (st' : QReader.State),
    @QReader.read_header Harness.stub
      (Some ([x01; x02; x00; x01; x09; x00; x00; x00] ++ [x2a]))
      (Harness.chunk_reader, Harness.delivering [])
    = (Ok (QMessage.mk PyNone (byte_val x02)
             (unpack_unsigned e [x09; x00; x00; x00] + Z.shiftl (byte_val x01) 32)
             (byte_val x00)), st') /\
    BytesBuffer.endianness (QReader._buffer (fst st')) = e /\
    (e = LittleEndian <-> x01 = x01) /\
    (e = BigEndian <-> x01 <> x01).
Proof.
  apply (@read_header_endianness_and_size Harness.stub
           x01 x02 x00 x01 x09 x00 x00 x00
           (Some ([x01; x02; x00; x01; x09; x00; x00; x00] ++ [x2a]))
           Harness.chunk_reader (Harness.delivering [])).
  simpl. exists [x2a]. reflexivity.
Defined.

(** An 8-byte header that arrives as a segment of 3 bytes and one of 5. *)
Lemma read_bytes_returns_short_read_witness :
  exists l',
    QReader._read_bytes 8
      (Harness.stream_reader,
       Harness.delivering [[x01; x02; x00]; [x00; x09; x00; x00; x00]])
    = (Ok [x01; x02; x00], (Harness.stream_reader, l')) /\
    transports l' !! 0%nat = Some (mkTransport [] false [] [[x00; x09; x00; x00; x00]]).
Proof.
  apply (read_bytes_returns_short_read Harness.stream_reader
           (Harness.delivering [[x01; x02; x00]; [x00; x09; x00; x00; x00]]) 0%nat
           (mkTransport [] false [] [[x01; x02; x00]; [x00; x09; x00; x00; x00]])
           [x01; x02; x00] [[x00; x09; x00; x00; x00]] 8).
  - reflexivity.
  - reflexivity.
  - reflexivity.
  - reflexivity.
  - unfold len. simpl. lia.
Defined.

(** No answer on either attempt. *)
Lemma open_rejected_twice_stays_connected_witness :
  exists (c' : QConnection.t) (l' : Loop) (e : exn) (t : Transport),
    @QConnection.open Harness.stub (Harness.fresh, Harness.loop [Accept []; Accept []])
      = (Raise e, (c', l')) /\
    e = TypeError "object NoneType can't be used in 'await' expression" /\
    kind_of e <> AuthenticationError /\
    QConnection.is_connected c' = true /\
    QConnection._s_writer c' = Some 0%nat /\
    transports l' = [t] /\
    closing t = true /\
    network l' = [Accept []].
Proof.
  apply (@open_rejected_twice_stays_connected Harness.stub Harness.fresh
           (Harness.loop [Accept []; Accept []]) (Harness.latin1 ":") [] [] [] [] []).
  - reflexivity.
  - reflexivity.
  - reflexivity.
  - simpl. lia.
  - reflexivity.
  - reflexivity.
  - reflexivity.
Defined.

(** The peer answers the query ['q'] with a message of kind SYNC: the
    state after the error is the state after the receive, whose transport
    holds the handshake frame and the query frame. *)
Lemma sendSync_unexpected_kind_writes_nothing_back_witness :
  @QConnection.sendSync Harness.stub (PyStr "q") [] [] (Harness.awaiting x01)
  = (Raise (QReaderException "Received message of type: %s where response was expected"),
     snd (@QConnection.receive Harness.stub false []
            (snd (@QConnection.query Harness.stub MessageType.SYNC (PyStr "q") [] []
                    (Harness.awaiting x01))))) /\
  transports
    (snd (snd (@QConnection.receive Harness.stub false []
                 (snd (@QConnection.query Harness.stub MessageType.SYNC (PyStr "q") [] []
                         (Harness.awaiting x01))))))
  = [mkTransport (Harness.handshake_frame ++ Harness.query_frame) false [] []].
Proof.
  split.
  - apply (@sendSync_unexpected_kind_writes_nothing_back Harness.stub (PyStr "q") [] []
             (Harness.awaiting x01)
             (snd (@QConnection.query Harness.stub MessageType.SYNC (PyStr "q") [] []
                     (Harness.awaiting x01)))
             (snd (@QConnection.receive Harness.stub false []
                     (snd (@QConnection.query Harness.stub MessageType.SYNC (PyStr "q") [] []
                             (Harness.awaiting x01)))))
             (QMessage.mk (PyBytes [x2a]) 1 9 0)).
    + reflexivity.
    + reflexivity.
  - reflexivity.
Defined.

(** * Further properties of the code *)

(** ** Opening *)

Section Opening.
Context `{Externals}.

(** X1.  [open()] on a connection without a stream handle whose host is
    [None] or the empty string raises [QConnectionException] before any
    connection attempt: the connection, the transports and the pending
    answers of the network are untouched. *)
Theorem open_without_host_raises_before_connecting :
  forall (c : QConnection.t) (l : Loop),
    QConnection._s_writer c = None ->
    QConnection.host c = None \/ QConnection.host c = Some ""%string ->
    QConnection.open (c, l) = (Raise (QConnectionException "Host cannot be None"), (c, l)).
Proof.
  intros c l Hw Hh.
  unfold QConnection.open. unfold bind at 1. unfold QConnection.self at 1. cbn [fst snd].
  rewrite Hw. cbn [truthy negb].
  destruct Hh as [-> | ->]; reflexivity.
Qed.

(** X2.  When the credentials cannot be encoded, [open()] fails after the
    transport has been established and leaves it half-open: the encoding
    error propagates, nothing has been sent, the transport is not closed,
    [_s_writer] holds its handle, so that [is_connected()] is true, and
    neither reader, writer nor protocol version has been set. *)
Theorem open_encoding_failure_leaves_transport_open :
  forall (c : QConnection.t) (l : Loop) (e : exn) (segments : list bytes)
         (net : list Outcome),
    QConnection._s_writer c = None ->
    QConnection.str_truthy (QConnection.host c) = true ->
    network l = Accept segments :: net ->
    str_encode (QConnection.str_or_empty (QConnection.username c) ++ ":"
                ++ QConnection.str_or_empty (QConnection.password c))%string
               (QConnection._encoding c) = Raise e ->
    exists c',
      QConnection.open (c, l) =
        (Raise e, (c', mkLoop (transports l ++ [mkTransport [] false [] segments]) net)) /\
      QConnection.is_connected c' = true /\
      QConnection._s_writer c' = Some (List.length (transports l)) /\
      QConnection._writer c' = QConnection._writer c /\
      QConnection._reader c' = QConnection._reader c /\
      QConnection._protocol_version c' = QConnection._protocol_version c.
Proof.
  intros c l e segments net Hw Hh Hnet Henc.
  destruct c as [host port username password enc opts sr sw pv wr rd].
  destruct l as [ts nw]. simpl in Hw, Hh, Henc, Hnet. subst sw nw.
  eexists.
  unfold_connection. cbn -[bytes_of_ints]. rewrite Hh. cbn -[bytes_of_ints].
  rewrite Henc. cbn.
  repeat split; done.
Qed.

(** X3.  After a handshake answered on the first attempt, the frame
    writer and the frame reader that [open()] creates are bound to the
    stream of the new transport, the same that [_s_writer] and [_s_reader]
    hold; the writer carries the negotiated protocol version and both
    carry the connection's encoding. *)
Theorem open_binds_reader_and_writer :
  forall (c : QConnection.t) (l : Loop) (credentials : bytes)
         (segments rest : list bytes) (net : list Outcome) (v : byte) (more : bytes),
    QConnection._s_writer c = None ->
    QConnection.str_truthy (QConnection.host c) = true ->
    str_encode (QConnection.str_or_empty (QConnection.username c) ++ ":"
                ++ QConnection.str_or_empty (QConnection.password c))%string
               (QConnection._encoding c) = Ok credentials ->
    0 <= MAX_PROTOCOL_VERSION < 256 ->
    network l = Accept segments :: net ->
    wait_for_data segments = (v :: more, rest) ->
    exists (c' : QConnection.t) (l' : Loop) (w : QWriter.t) (rd : QReader.t),
      QConnection.open (c, l) = (Ok tt, (c', l')) /\
      QConnection._s_writer c' = Some (List.length (transports l)) /\
      QConnection._s_reader c' = Some (List.length (transports l)) /\
      QConnection._writer c' = Some w /\
      QConnection._reader c' = Some rd /\
      QWriter._stream w = Some (List.length (transports l)) /\
      QReader._stream rd = Some (List.length (transports l)) /\
      QWriter._protocol_version w = Some (Z.min (byte_val v) MAX_PROTOCOL_VERSION) /\
      QWriter._encoding w = QConnection._encoding c /\
      QReader._encoding rd = QConnection._encoding c.
Proof.
  intros c l credentials segments rest net v more Hw Hh Henc Hmax Hnet Hseg.
  destruct (offer_bytes Hmax) as (offered & Hval & Hoffer).
  destruct c as [host port username password enc opts sr sw pv wr rd].
  destruct l as [ts nw]. simpl in Hw, Hh, Henc, Hnet. subst sw nw.
  eexists _, _, _, _.
  unfold_connection. cbn -[bytes_of_ints]. rewrite Hh. cbn -[bytes_of_ints].
  rewrite Henc, Hoffer.
  run_streams. rewrite Hseg. run_streams.
  repeat split; done.
Qed.

(** X4.  A closed connection is not reopened: [close()] followed by
    [open()] on a connection that holds a stream closes the transport and
    then does nothing, because the handle is still in [_s_writer].  No
    connection attempt is made, and the connection stays bound to the
    closed transport with [is_connected()] true. *)
Theorem close_then_open_does_not_reconnect :
  forall (c : QConnection.t) (l : Loop) (s : stream) (t : Transport),
    QConnection._s_writer c = Some s ->
    transports l !! s = Some t ->
    exists l',
      (QConnection.close ;; QConnection.open)%py (c, l) = (Ok tt, (c, l')) /\
      QConnection.is_connected c = true /\
      transports l' =
        <[s := mkTransport (sent t) true (buffer t) (arriving t)]> (transports l) /\
      network l' = network l.
Proof.
  intros c l s t Hw Ht.
  eexists. unfold bind at 1. rewrite (close_on_open_stream _ _ _ _ Hw Ht).
  unfold QConnection.open. unfold bind at 1. unfold QConnection.self at 1. cbn [fst snd].
  rewrite Hw. cbn [truthy negb].
  split; [reflexivity|]. unfold QConnection.is_connected. rewrite Hw. done.
Qed.

End Opening.

(** ** Writing frames *)

Lemma sends_only_refl (l : Loop) : sends_only l l.
Proof.
  repeat split. intros i t Ht. exists t, []. rewrite app_nil_r. done.
Qed.

Lemma stream_write_sends_only (s : stream) (data : bytes) (l : Loop) :
  sends_only l (snd (StreamWriter.write s data l)).
Proof.
  unfold StreamWriter.write.
  destruct (transports l !! s) as [t|] eqn:Ht; [|apply sends_only_refl].
  destruct (closing t) eqn:Hc; [apply sends_only_refl|].
  unfold sends_only, set_transport. cbn [snd transports network].
  split; [done|]. split; [by rewrite length_insert|].
  intros i t0 Hi. destruct (decide (i = s)) as [->|Hne].
  - pose proof (eq_trans (eq_sym Ht) Hi) as E. injection E as <-.
    eexists _, data. rewrite list_lookup_insert_eq by (by eapply lookup_lt_Some).
    repeat split; done.
  - exists t0, []. rewrite list_lookup_insert_ne by done.
    rewrite app_nil_r. done.
Qed.

Lemma stream_drain_keeps_loop (s : stream) (l : Loop) :
  snd (StreamWriter.drain s l) = l.
Proof.
  unfold StreamWriter.drain. destruct (transports l !! s) as [t|]; [|done].
  by destruct (closing t).
Qed.

Section Writing.
Context `{Externals}.

(** The base class's part of [write] touches the writer's buffer only. *)
Lemma super_write_keeps_loop (data : pyobj) (msg_type : Z) (options : Options)
    (w : QWriter.t) (l : Loop) :
  snd (snd (QWriter.super_write data msg_type options (w, l))) = l /\
  QWriter._stream (fst (snd (QWriter.super_write data msg_type options (w, l))))
    = QWriter._stream w.
Proof.
  unfold QWriter.super_write, bind, QWriter.self, of_result, on_fst, modify.
  cbn [fst snd]. destruct (serialize _ _ _) as [payload|e]; cbn [fst snd].
  all: split; [reflexivity | unfold QWriter.set_buffer; reflexivity].
Qed.

(** [write], step by step. *)
Lemma writer_write_steps (data : pyobj) (msg_type : Z) (options : Options)
    (w : QWriter.t) (l : Loop) :
  QWriter.write data msg_type options (w, l) =
    match QWriter.super_write data msg_type options (w, l) with
    | (Raise e, st) => (Raise e, st)
    | (Ok _, (w1, l1)) =>
        match QWriter._stream w1 with
        | None => (Ok (Some (QWriter._buffer w1)), (w1, l1))
        | Some s =>
            match StreamWriter.write s (QWriter._buffer w1) l1 with
            | (Raise e, l2) => (Raise e, (w1, l2))
            | (Ok _, l2) =>
                match StreamWriter.drain s l2 with
                | (Raise e, l3) => (Raise e, (w1, l3))
                | (Ok _, l3) => (Ok None, (w1, l3))
                end
            end
        end
    end.
Proof.
  unfold QWriter.write. unfold bind at 1.
  destruct (QWriter.super_write data msg_type options (w, l)) as [[[]|e] [w1 l1]];
    [|reflexivity].
  unfold bind at 1. unfold QWriter.self at 1. cbn [fst snd].
  destruct (QWriter._stream w1) as [s|]; [|reflexivity].
  unfold bind, on_snd. cbn [fst snd].
  destruct (StreamWriter.write s (QWriter._buffer w1) l1) as [[[]|e] l2]; [|reflexivity].
  cbn [fst snd].
  destruct (StreamWriter.drain s l2) as [[[]|e] l3]; reflexivity.
Qed.

Lemma writer_write_sends_only (data : pyobj) (msg_type : Z) (options : Options)
    (w : QWriter.t) (l : Loop) :
  sends_only l (snd (snd (QWriter.write data msg_type options (w, l)))) /\
  QWriter._stream (fst (snd (QWriter.write data msg_type options (w, l))))
    = QWriter._stream w.
Proof.
  rewrite writer_write_steps.
  destruct (super_write_keeps_loop data msg_type options w l) as [Hl Hs].
  destruct (QWriter.super_write data msg_type options (w, l)) as [[[]|e] [w1 l1]];
    cbn [fst snd] in Hl, Hs; subst l1; [|split; [apply sends_only_refl|exact Hs]].
  destruct (QWriter._stream w1) as [s|] eqn:Hs1;
    [|split; [apply sends_only_refl|cbn [fst snd]; congruence]].
  pose proof (stream_write_sends_only s (QWriter._buffer w1) l) as Hw.
  destruct (StreamWriter.write s (QWriter._buffer w1) l) as [[[]|e] l2]; cbn [fst snd] in *;
    [|split; [done|congruence]].
  pose proof (stream_drain_keeps_loop s l2) as Hd.
  destruct (StreamWriter.drain s l2) as [[[]|e] l3]; cbn [fst snd] in *; subst l3;
    split; (done || congruence).
Qed.

Opaque pack_unsigned.

(** What a writer bound to an open stream does, given the frame the same
    writer without a stream returns. *)
Lemma writer_write_bound (data : pyobj) (msg_type : Z) (options : Options)
    (w : QWriter.t) (l l0 : Loop) (s : stream) (t : Transport) (frame : bytes)
    (w0' : QWriter.t) (l0' : Loop) :
  QWriter._stream w = Some s ->
  transports l !! s = Some t ->
  closing t = false ->
  QWriter.write data msg_type options
    (QWriter.mk None (QWriter._protocol_version w) (QWriter._encoding w)
       (QWriter._buffer w), l0)
    = (Ok (Some frame), (w0', l0')) ->
  l0' = l0 /\
  QWriter.write data msg_type options (w, l) =
    (Ok None,
     (QWriter.set_buffer frame w,
      set_transport s (mkTransport (sent t ++ frame) false (buffer t) (arriving t)) l)).
Proof.
  intros Hs Ht Hc.
  destruct w as [st pv enc buf]. cbn [QWriter._stream QWriter._protocol_version
    QWriter._encoding QWriter._buffer] in *. subst st.
  unfold QWriter.write, QWriter.super_write, bind, QWriter.self, of_result, on_fst,
    on_snd, modify, ret, QWriter.set_buffer, StreamWriter.write, StreamWriter.drain.
  cbn [fst snd QWriter._stream QWriter._protocol_version QWriter._encoding QWriter._buffer].
  destruct (serialize pv options data) as [payload|e];
    cbn [fst snd QWriter._stream QWriter._protocol_version QWriter._encoding
         QWriter._buffer]; [|discriminate].
  intros Hframe. injection Hframe as <- _ <-. split; [done|].
  rewrite Ht, Hc. unfold set_transport. cbn [fst snd transports network].
  rewrite list_lookup_insert_eq by (by eapply lookup_lt_Some).
  cbn [closing fst snd]. reflexivity.
Qed.

(** What a writer bound to a closed stream does when the value can be
    serialized: the frame is dropped and [drain()] raises. *)
Lemma writer_write_closed (data : pyobj) (msg_type : Z) (options : Options)
    (w : QWriter.t) (l : Loop) (s : stream) (t : Transport) (payload : bytes) :
  QWriter._stream w = Some s ->
  transports l !! s = Some t ->
  closing t = true ->
  serialize (QWriter._protocol_version w) options data = Ok payload ->
  exists w',
    QWriter.write data msg_type options (w, l) = (Raise ConnectionResetError, (w', l)).
Proof.
  intros Hs Ht Hc Hser.
  destruct w as [st pv enc buf]. cbn [QWriter._stream QWriter._protocol_version
    QWriter._encoding QWriter._buffer] in *. subst st.
  unfold QWriter.write, QWriter.super_write, bind, QWriter.self, of_result, on_fst,
    on_snd, modify, ret, QWriter.set_buffer, StreamWriter.write, StreamWriter.drain.
  cbn [fst snd QWriter._stream QWriter._protocol_version QWriter._encoding QWriter._buffer].
  rewrite Hser.
  cbn [fst snd QWriter._stream QWriter._protocol_version QWriter._encoding QWriter._buffer].
  rewrite Ht, Hc. cbn [fst snd]. rewrite Ht, Hc. eexists. reflexivity.
Qed.

Transparent pack_unsigned.

(** X5.  A writer bound to an open stream sends exactly the frame that
    the same writer without a stream returns to its caller: it appends
    that frame to what the transport has sent, keeps it as its buffer and
    returns [None]. *)
Theorem write_sends_the_unbound_frame :
  forall (data : pyobj) (msg_type : Z) (options : Options) (w : QWriter.t) (l l0 : Loop)
         (s : stream) (t : Transport) (frame : bytes) (w0' : QWriter.t) (l0' : Loop),
    QWriter._stream w = Some s ->
    transports l !! s = Some t ->
    closing t = false ->
    QWriter.write data msg_type options
      (QWriter.mk None (QWriter._protocol_version w) (QWriter._encoding w)
         (QWriter._buffer w), l0)
      = (Ok (Some frame), (w0', l0')) ->
    l0' = l0 /\
    QWriter.write data msg_type options (w, l) =
      (Ok None,
       (QWriter.set_buffer frame w,
        set_transport s (mkTransport (sent t ++ frame) false (buffer t) (arriving t)) l)).
Proof.
  intros data msg_type options w l l0 s t frame w0' l0'.
  apply writer_write_bound.
Qed.

(** The connection's [query], step by step. *)
Lemma query_steps (msg_type : Z) (q : pyobj) (parameters : list pyobj)
    (options : Options) (c : QConnection.t) (l : Loop) :
  QConnection.query msg_type q parameters options (c, l) =
    (if negb (truthy (QConnection._s_writer c)) then
       raise (QConnectionException "Connection is not established.")
     else if negb (0 =? len parameters) && (8 <? len parameters) then
       raise (QWriterException "Too many parameters.")
     else if (0 =? len parameters) || (len parameters =? 0) then
       QConnection.on_writer (QWriter.write q msg_type
                                (union_dict (QConnection._options c) options)) ;; ret tt
     else
       QConnection.on_writer (QWriter.write (PyList (q :: parameters)) msg_type
                                (union_dict (QConnection._options c) options)) ;; ret tt)%py
      (c, l).
Proof. reflexivity. Qed.

(** X6.  [query], and with it [sendAsync], only sends: whatever its
    outcome, it makes no connection attempt, adds and closes no transport,
    takes nothing from any stream's incoming bytes, and leaves the reader,
    the stream handles and the protocol version of the connection as they
    were; the bytes a transport has sent can only grow at the end. *)
Theorem query_only_sends :
  forall (msg_type : Z) (q : pyobj) (parameters : list pyobj) (options : Options)
         (c : QConnection.t) (l : Loop),
    let after := snd (QConnection.query msg_type q parameters options (c, l)) in
    let after_async := snd (QConnection.sendAsync q parameters options (c, l)) in
    (sends_only l (snd after) /\
     QConnection._reader (fst after) = QConnection._reader c /\
     QConnection._s_reader (fst after) = QConnection._s_reader c /\
     QConnection._s_writer (fst after) = QConnection._s_writer c /\
     QConnection._protocol_version (fst after) = QConnection._protocol_version c) /\
    (sends_only l (snd after_async) /\
     QConnection._reader (fst after_async) = QConnection._reader c).
Proof.
  assert (Hgen : forall msg_type q parameters options c l,
    let after := snd (QConnection.query msg_type q parameters options (c, l)) in
    sends_only l (snd after) /\
    QConnection._reader (fst after) = QConnection._reader c /\
    QConnection._s_reader (fst after) = QConnection._s_reader c /\
    QConnection._s_writer (fst after) = QConnection._s_writer c /\
    QConnection._protocol_version (fst after) = QConnection._protocol_version c).
  { intros msg_type q parameters options c l after. subst after.
    assert (Hstep : forall v,
      let after := snd ((QConnection.on_writer
                           (QWriter.write v msg_type
                              (union_dict (QConnection._options c) options)) ;;
                         ret tt)%py (c, l)) in
      sends_only l (snd after) /\
      QConnection._reader (fst after) = QConnection._reader c /\
      QConnection._s_reader (fst after) = QConnection._s_reader c /\
      QConnection._s_writer (fst after) = QConnection._s_writer c /\
      QConnection._protocol_version (fst after) = QConnection._protocol_version c).
    { intros v. unfold bind, QConnection.on_writer. cbn [fst snd].
      destruct (QConnection._writer c) as [w|];
        [|cbn [fst snd]; split; [apply sends_only_refl|repeat split]].
      destruct (writer_write_sends_only v msg_type
                  (union_dict (QConnection._options c) options) w l) as [Hsend _].
      destruct (QWriter.write v msg_type (union_dict (QConnection._options c) options)
                  (w, l)) as [[r|e] [w' l']]; unfold ret; cbn [fst snd] in *;
        (split; [exact Hsend | repeat split]). }
    rewrite query_steps.
    destruct (truthy (QConnection._s_writer c)); cbn [negb];
      [|unfold raise; cbn [fst snd]; split; [apply sends_only_refl|repeat split]].
    destruct (negb (0 =? len parameters) && (8 <? len parameters));
      [unfold raise; cbn [fst snd]; split; [apply sends_only_refl|repeat split]|].
    destruct ((0 =? len parameters) || (len parameters =? 0)); apply Hstep. }
  intros msg_type q parameters options c l. cbv zeta. split; [apply Hgen|].
  unfold QConnection.sendAsync.
  destruct (Hgen MessageType.ASYNC q parameters options c l) as (H1 & H2 & _).
  split; assumption.
Qed.

End Writing.

Section AfterClose.
Context `{Externals}.

(** X7.  After [close()], [query] does not report a missing connection:
    the handle is still in [_s_writer], so the check passes and the frame
    is handed to the closed stream.  With at most 8 parameters and a value
    the codec can serialize, the call raises [ConnectionResetError] out of
    [drain()], not [QConnectionException], and no byte is sent. *)
Theorem query_after_close_raises_ConnectionResetError :
  forall (msg_type : Z) (q : pyobj) (parameters : list pyobj) (options : Options)
         (c : QConnection.t) (l : Loop) (s : stream) (t : Transport) (w : QWriter.t)
         (payload : bytes),
    QConnection._s_writer c = Some s ->
    QConnection._writer c = Some w ->
    QWriter._stream w = Some s ->
    transports l !! s = Some t ->
    len parameters <= 8 ->
    serialize (QWriter._protocol_version w) (union_dict (QConnection._options c) options)
      (match parameters with
       | [] => q
       | _ :: _ => PyList (q :: parameters)
       end) = Ok payload ->
    exists c',
      (QConnection.close ;; QConnection.query msg_type q parameters options)%py (c, l) =
        (Raise ConnectionResetError,
         (c', set_transport s (mkTransport (sent t) true (buffer t) (arriving t)) l)) /\
      kind_of ConnectionResetError <> ConnectionError.
Proof.
  intros msg_type q parameters options c l s t w payload Hsw Hw Hws Ht Hlen Hser.
  assert (Hlt : (s < List.length (transports l))%nat) by (by eapply lookup_lt_Some).
  unfold bind at 1. rewrite (close_on_open_stream _ _ _ _ Hsw Ht).
  rewrite query_steps. rewrite Hsw. cbn [truthy negb].
  replace (8 <? len parameters) with false by (symmetry; apply Z.ltb_ge; lia).
  rewrite andb_false_r.
  assert (Hstep : forall v,
    serialize (QWriter._protocol_version w) (union_dict (QConnection._options c) options) v
      = Ok payload ->
    exists c',
      (QConnection.on_writer
         (QWriter.write v msg_type (union_dict (QConnection._options c) options)) ;;
       ret tt)%py
        (c, set_transport s (mkTransport (sent t) true (buffer t) (arriving t)) l)
      = (Raise ConnectionResetError,
         (c', set_transport s (mkTransport (sent t) true (buffer t) (arriving t)) l))).
  { intros v Hv. unfold bind, QConnection.on_writer. cbn [fst snd]. rewrite Hw.
    destruct (writer_write_closed v msg_type (union_dict (QConnection._options c) options)
                w (set_transport s (mkTransport (sent t) true (buffer t) (arriving t)) l)
                s (mkTransport (sent t) true (buffer t) (arriving t)) payload Hws)
      as (w' & Hwrite); [by apply list_lookup_insert_eq | reflexivity | exact Hv |].
    rewrite Hwrite. eexists. reflexivity. }
  destruct parameters as [|p ps].
  - destruct (Hstep q Hser) as (c' & Hc'). exists c'. split; [exact Hc'|discriminate].
  - replace (0 =? len (p :: ps)) with false
      by (symmetry; apply Z.eqb_neq; unfold len; simpl; lia).
    replace (len (p :: ps) =? 0) with false
      by (symmetry; apply Z.eqb_neq; unfold len; simpl; lia).
    cbn [orb].
    destruct (Hstep (PyList (q :: p :: ps)) Hser) as (c' & Hc').
    exists c'. split; [exact Hc'|discriminate].
Qed.

End AfterClose.

(** ** Queries on a connection that is not open *)

Section NotOpen.
Context `{Externals}.

(** [open()] against a peer that closes without answering: the state in
    which the [TypeError] leaves the connection and the loop. *)
Lemma open_unanswered_state (c : QConnection.t) (l : Loop) (credentials : bytes)
    (segments rest : list bytes) (net : list Outcome) :
  QConnection._s_writer c = None ->
  QConnection.str_truthy (QConnection.host c) = true ->
  str_encode (QConnection.str_or_empty (QConnection.username c) ++ ":"
              ++ QConnection.str_or_empty (QConnection.password c))%string
             (QConnection._encoding c) = Ok credentials ->
  0 <= MAX_PROTOCOL_VERSION < 256 ->
  network l = Accept segments :: net ->
  wait_for_data segments = ([], rest) ->
  exists t,
    QConnection.open (c, l) =
      (Raise (TypeError "object NoneType can't be used in 'await' expression"),
       (QConnection.set_streams (Some (List.length (transports l)))
          (Some (List.length (transports l))) c,
        mkLoop (transports l ++ [t]) net)) /\
    closing t = true.
Proof.
  intros Hw Hh Henc Hmax Hnet Hseg.
  destruct (offer_bytes Hmax) as (offered & Hval & Hoffer).
  destruct c as [host port username password enc opts sr sw pv wr rd].
  destruct l as [ts nw]. simpl in Hw, Hh, Henc, Hnet. subst sw nw.
  eexists.
  unfold_connection. cbn -[bytes_of_ints]. rewrite Hh. cbn -[bytes_of_ints].
  rewrite Henc, Hoffer.
  run_streams. rewrite Hseg. run_streams.
  split; reflexivity.
Qed.

(** [open()] against a peer that answers the first frame, then [close()]:
    the connection object is the one [open()] built, bound to the closed
    transport. *)
Lemma open_close_state (c : QConnection.t) (l : Loop) (credentials : bytes)
    (segments rest : list bytes) (net : list Outcome) (v : byte) (more : bytes) :
  QConnection._s_writer c = None ->
  QConnection.str_truthy (QConnection.host c) = true ->
  str_encode (QConnection.str_or_empty (QConnection.username c) ++ ":"
              ++ QConnection.str_or_empty (QConnection.password c))%string
             (QConnection._encoding c) = Ok credentials ->
  0 <= MAX_PROTOCOL_VERSION < 256 ->
  network l = Accept segments :: net ->
  wait_for_data segments = (v :: more, rest) ->
  exists (c1 : QConnection.t) (t : Transport) (w : QWriter.t),
    (QConnection.open ;; QConnection.close) (c, l) =
      (Ok tt, (c1, mkLoop (transports l ++ [t]) net)) /\
    closing t = true /\
    QConnection._s_writer c1 = Some (List.length (transports l)) /\
    QConnection._options c1 = QConnection._options c /\
    QConnection._writer c1 = Some w /\
    QWriter._stream w = Some (List.length (transports l)) /\
    QWriter._protocol_version w = Some (Z.min (byte_val v) MAX_PROTOCOL_VERSION).
Proof.
  intros Hw Hh Henc Hmax Hnet Hseg.
  destruct (offer_bytes Hmax) as (offered & Hval & Hoffer).
  destruct c as [host port username password enc opts sr sw pv wr rd].
  destruct l as [ts nw]. simpl in Hw, Hh, Henc, Hnet. subst sw nw.
  eexists _, _, _.
  unfold_connection. cbn -[bytes_of_ints]. rewrite Hh. cbn -[bytes_of_ints].
  rewrite Henc, Hoffer.
  run_streams. rewrite Hseg. run_streams.
  repeat split; reflexivity.
Qed.


(** [query] with at most 8 parameters on a connection that holds a stream
    handle and has no frame writer. *)
Lemma query_without_writer (msg_type : Z) (q : pyobj) (parameters : list pyobj)
    (options : Options) (c : QConnection.t) (l : Loop) (s : stream) :
  QConnection._s_writer c = Some s ->
  QConnection._writer c = None ->
  len parameters <= 8 ->
  QConnection.query msg_type q parameters options (c, l) =
    (Raise (AttributeError "'NoneType' object has no attribute"), (c, l)).
Proof.
  intros Hsw Hw Hlen.
  rewrite query_steps, Hsw. cbn [truthy negb].
  replace (8 <? len parameters) with false by (symmetry; apply Z.ltb_ge; lia).
  rewrite andb_false_r.
  destruct ((0 =? len parameters) || (len parameters =? 0));
    unfold bind, QConnection.on_writer; cbn [fst snd]; rewrite Hw; reflexivity.
Qed.

(** [query] with at most 8 parameters and a value the codec can serialize
    on a connection whose frame writer is bound to a closed transport. *)
Lemma query_on_closed_transport (msg_type : Z) (q : pyobj) (parameters : list pyobj)
    (options : Options) (c : QConnection.t) (l : Loop) (s s' : stream) (t : Transport)
    (w : QWriter.t) (payload : bytes) :
  QConnection._s_writer c = Some s' ->
  QConnection._writer c = Some w ->
  QWriter._stream w = Some s ->
  transports l !! s = Some t ->
  closing t = true ->
  len parameters <= 8 ->
  serialize (QWriter._protocol_version w) (union_dict (QConnection._options c) options)
    (match parameters with
     | [] => q
     | _ :: _ => PyList (q :: parameters)
     end) = Ok payload ->
  exists c',
    QConnection.query msg_type q parameters options (c, l) =
      (Raise ConnectionResetError, (c', l)).
Proof.
  intros Hsw Hw Hws Ht Hc Hlen Hser.
  rewrite query_steps, Hsw. cbn [truthy negb].
  replace (8 <? len parameters) with false by (symmetry; apply Z.ltb_ge; lia).
  rewrite andb_false_r.
  assert (Hstep : forall v,
    serialize (QWriter._protocol_version w) (union_dict (QConnection._options c) options) v
      = Ok payload ->
    exists c',
      (QConnection.on_writer
         (QWriter.write v msg_type (union_dict (QConnection._options c) options)) ;;
       ret tt)%py (c, l) = (Raise ConnectionResetError, (c', l))).
  { intros v Hv. unfold bind, QConnection.on_writer. cbn [fst snd]. rewrite Hw.
    destruct (writer_write_closed v msg_type (union_dict (QConnection._options c) options)
                w l s t payload Hws Ht Hc Hv) as (w' & Hwrite).
    rewrite Hwrite. eexists. reflexivity. }
  destruct parameters as [|p ps].
  - exact (Hstep q Hser).
  - replace (0 =? len (p :: ps)) with false
      by (symmetry; apply Z.eqb_neq; unfold len; simpl; lia).
    replace (len (p :: ps) =? 0) with false
      by (symmetry; apply Z.eqb_neq; unfold len; simpl; lia).
    cbn [orb]. exact (Hstep (PyList (q :: p :: ps)) Hser).
Qed.

(** C5.  [query] tests the stream handle, not whether the connection is
    open, so a connection that is not open does not get
    [QConnectionException] (the ConnectionError) from it.  After an
    [open()] that failed because the peer closed without answering, the
    handle of the closed stream is in place and no frame writer exists:
    a [query] with at most 8 parameters raises [AttributeError].  After
    [open()] and [close()], the handle is in place too: a [query] with at
    most 8 parameters and a value the codec can serialize goes to the
    closed stream and raises [ConnectionResetError].  In both cases
    [is_connected()] is true, the transport is closed and no byte is
    written. *)
Theorem query_on_closed_connection_misses_ConnectionError :
  forall (msg_type : Z) (q : pyobj) (parameters : list pyobj) (options : Options)
         (c : QConnection.t) (credentials : bytes),
    QConnection._s_writer c = None ->
    QConnection.str_truthy (QConnection.host c) = true ->
    str_encode (QConnection.str_or_empty (QConnection.username c) ++ ":"
                ++ QConnection.str_or_empty (QConnection.password c))%string
               (QConnection._encoding c) = Ok credentials ->
    0 <= MAX_PROTOCOL_VERSION < 256 ->
    len parameters <= 8 ->
    (forall (l : Loop) (segments rest : list bytes) (net : list Outcome),
       QConnection._writer c = None ->
       network l = Accept segments :: net ->
       wait_for_data segments = ([], rest) ->
       exists (c' : QConnection.t) (l' : Loop) (t : Transport) (e : exn) (msg : string),
         QConnection.open (c, l) =
           (Raise (TypeError "object NoneType can't be used in 'await' expression"),
            (c', l')) /\
         transports l' = (transports l ++ [t])%list /\
         closing t = true /\
         QConnection.is_connected c' = true /\
         QConnection.query msg_type q parameters options (c', l') = (Raise e, (c', l')) /\
         e = AttributeError msg /\
         kind_of e <> ConnectionError) /\
    (forall (l : Loop) (segments rest : list bytes) (net : list Outcome) (v : byte)
            (more payload : bytes),
       network l = Accept segments :: net ->
       wait_for_data segments = (v :: more, rest) ->
       serialize (Some (Z.min (byte_val v) MAX_PROTOCOL_VERSION))
         (union_dict (QConnection._options c) options)
         (match parameters with
          | [] => q
          | _ :: _ => PyList (q :: parameters)
          end) = Ok payload ->
       exists (c1 c' : QConnection.t) (l1 : Loop) (t : Transport) (e : exn),
         (QConnection.open ;; QConnection.close) (c, l) = (Ok tt, (c1, l1)) /\
         transports l1 = (transports l ++ [t])%list /\
         closing t = true /\
         QConnection.is_connected c1 = true /\
         QConnection.query msg_type q parameters options (c1, l1) = (Raise e, (c', l1)) /\
         e = ConnectionResetError /\
         kind_of e <> ConnectionError).
Proof.
  intros msg_type q parameters options c credentials Hsw Hh Henc Hmax Hlen. split.
  - intros l segments rest net Hw Hnet Hseg.
    destruct (open_unanswered_state c l credentials segments rest net
                Hsw Hh Henc Hmax Hnet Hseg) as (t & Hopen & Hc).
    eexists _, _, t, _, _. split; [exact Hopen|].
    split; [reflexivity|]. split; [exact Hc|]. split; [reflexivity|].
    split; [|split; [reflexivity | discriminate]].
    apply (query_without_writer _ _ _ _ _ _ (List.length (transports l)));
      [reflexivity | exact Hw | exact Hlen].
  - intros l segments rest net v more payload Hnet Hseg Hser.
    destruct (open_close_state c l credentials segments rest net v more
                Hsw Hh Henc Hmax Hnet Hseg)
      as (c1 & t & w & Hrun & Hc & Hs1 & Hopts & Hw1 & Hws & Hpv).
    destruct (query_on_closed_transport msg_type q parameters options c1
                (mkLoop (transports l ++ [t]) net) (List.length (transports l))
                (List.length (transports l)) t w payload Hs1 Hw1 Hws)
      as (c' & Hq).
    + simpl. by rewrite lookup_app_r, Nat.sub_diag.
    + exact Hc.
    + exact Hlen.
    + rewrite Hpv, Hopts. exact Hser.
    + exists c1, c', (mkLoop (transports l ++ [t]) net), t, ConnectionResetError.
      split; [exact Hrun|]. split; [reflexivity|]. split; [exact Hc|].
      split; [unfold QConnection.is_connected; by rewrite Hs1|].
      split; [exact Hq|]. split; [reflexivity | discriminate].
Qed.

End NotOpen.

(** ** More on byte acquisition *)

(** X9.  Whatever the stream holds, a successful [_read_bytes(n)] with
    [n >= 0] returns at most [n] bytes and, for [n > 0], at least one; it
    leaves the reader object as it was, and for [n = 0] the event loop
    too. *)
Theorem read_bytes_result_bounds :
  forall (r : QReader.t) (l : Loop) (n : Z) (data : bytes) (st' : QReader.State),
    0 <= n ->
    QReader._read_bytes n (r, l) = (Ok data, st') ->
    len data <= n /\ (0 < n -> 0 < len data) /\ fst st' = r /\
    (n = 0 -> snd st' = l).
Proof.
  intros r l n data st' Hn.
  unfold QReader._read_bytes, bind, QReader.self, on_snd, StreamReader.read, raise, ret.
  cbn [fst snd].
  destruct (QReader._stream r) as [s|]; [|discriminate].
  destruct (Z.eqb_spec n 0) as [->|Hne].
  - intros Heq. injection Heq as <- <-. cbn. repeat split; (lia || done).
  - cbn [fst snd]. destruct (transports l !! s) as [t|]; [|discriminate].
    replace (n <? 0) with false by (symmetry; apply Z.ltb_ge; lia).
    destruct (match buffer t with
              | [] => wait_for_data (arriving t)
              | _ :: _ => (buffer t, arriving t)
              end) as [buf rest].
    cbn [fst snd].
    destruct (Z.eqb_spec (len (take (Z.to_nat n) buf)) 0) as [Hz|Hnz]; [discriminate|].
    intros Heq. injection Heq as <- <-. cbn [fst snd].
    assert (0 <= len (take (Z.to_nat n) buf)) by (unfold len; lia).
    repeat split; try done; try lia.
    unfold len. rewrite length_take. lia.
Qed.

(** A read of the bytes the stream's buffer holds in front, none
    included. *)
Lemma read_bytes_front (r : QReader.t) (l : Loop) (s : stream) (t : Transport)
    (wanted rest : bytes) :
  QReader._stream r = Some s ->
  transports l !! s = Some t ->
  buffer t = (wanted ++ rest)%list ->
  QReader._read_bytes (len wanted) (r, l) =
    (Ok wanted,
     (r, set_transport s (mkTransport (sent t) (closing t) rest (arriving t)) l)).
Proof.
  intros Hs Ht Hb.
  destruct wanted as [|b wanted'].
  - change (len []) with 0. rewrite (read_bytes_zero r l s Hs).
    simpl in Hb. unfold set_transport.
    assert (Heq : mkTransport (sent t) (closing t) rest (arriving t) = t)
      by (destruct t; simpl in *; by subst).
    rewrite Heq. rewrite list_insert_id by exact Ht. destruct l; reflexivity.
  - apply read_bytes_buffered; try done; unfold len; simpl; lia.
Qed.

(** X10.  When the stream's buffer already holds the [n] bytes asked for,
    [_read_bytes(n)] returns exactly these bytes and leaves the bytes
    after them in the buffer for the next read. *)
Theorem read_bytes_exact_when_buffered :
  forall (r : QReader.t) (l : Loop) (s : stream) (t : Transport) (wanted rest : bytes),
    QReader._stream r = Some s ->
    transports l !! s = Some t ->
    buffer t = (wanted ++ rest)%list ->
    QReader._read_bytes (len wanted) (r, l) =
      (Ok wanted,
       (r, set_transport s (mkTransport (sent t) (closing t) rest (arriving t)) l)).
Proof. intros r l s t wanted rest. apply read_bytes_front. Qed.

(** A negative length reads the stream to its end. *)
Lemma read_bytes_negative (r : QReader.t) (l : Loop) (s : stream) (t : Transport) (n : Z) :
  QReader._stream r = Some s ->
  transports l !! s = Some t ->
  n < 0 ->
  QReader._read_bytes n (r, l) =
    ((if len (buffer t ++ List.concat (arriving t)) =? 0
      then Raise (QReaderException "Error while reading data")
      else Ok (buffer t ++ List.concat (arriving t))%list),
     (r, set_transport s (mkTransport (sent t) (closing t) [] []) l)).
Proof.
  intros Hs Ht Hn.
  unfold QReader._read_bytes, bind, QReader.self, on_snd, StreamReader.read. simpl.
  rewrite Hs. replace (n =? 0) with false by (symmetry; apply Z.eqb_neq; lia).
  simpl. rewrite Ht. replace (n =? 0) with false by (symmetry; apply Z.eqb_neq; lia).
  replace (n <? 0) with true by (symmetry; apply Z.ltb_lt; lia).
  cbn [fst snd].
  destruct (len (buffer t ++ List.concat (arriving t)) =? 0); reflexivity.
Qed.

(** ** Reading frames from a stream *)

Section Frames.
Context `{Externals}.

(** [read_header] on a stream whose buffer starts with the eight bytes. *)
Lemma read_header_buffered (marker kind mode ext s0 s1 s2 s3 : byte) (more : bytes)
    (source : option bytes) (r : QReader.t) (l : Loop) (s : stream) (t : Transport) :
  QReader._stream r = Some s ->
  transports l !! s = Some t ->
  buffer t = ([marker; kind; mode; ext; s0; s1; s2; s3] ++ more)%list ->
  let e := if byte_val marker =? 1 then LittleEndian else BigEndian in
  QReader.read_header source (r, l) =
    (Ok (QMessage.mk PyNone (byte_val kind)
           (unpack_unsigned e [s0; s1; s2; s3] + Z.shiftl (byte_val ext) 32)
           (byte_val mode)),
     (QReader.mk (Some s) (QReader._encoding r)
        (BytesBuffer.mk [marker; kind; mode; ext; s0; s1; s2; s3] 8 e)
        (Endianness_eqb e sys_byteorder) (QReader._options r),
      set_transport s (mkTransport (sent t) (closing t) more (arriving t)) l)).
Proof.
  intros Hs Ht Hb e.
  unfold QReader.read_header.
  unfold bind at 1. unfold QReader.self at 1. cbn [fst].
  rewrite Hs. cbn [truthy].
  unfold bind at 1. unfold bind at 1.
  change 8 with (len [marker; kind; mode; ext; s0; s1; s2; s3]).
  rewrite (read_bytes_buffered r l s t _ more Hs Ht Hb) by (unfold len; simpl; lia).
  unfold QReader.on_buffer at 1, BytesBuffer.wrap, modify. cbn [fst snd].
  etransitivity.
  { apply (header_fields marker kind mode ext s0 s1 s2 s3 []); reflexivity. }
  cbn [QReader._stream QReader._encoding QReader._options QReader.set_buffer].
  rewrite Hs. reflexivity.
Qed.

(** [read_data] of an uncompressed message whose payload is in the
    stream's buffer. *)
Lemma read_data_plain_buffered (r : QReader.t) (l : Loop) (s : stream) (t : Transport)
    (message_size compression_mode : Z) (options : Options) (payload rest : bytes) :
  QReader._stream r = Some s ->
  transports l !! s = Some t ->
  buffer t = (payload ++ rest)%list ->
  compression_mode <= 0 ->
  len payload = message_size - 8 ->
  let e := BytesBuffer.endianness (QReader._buffer r) in
  QReader.read_data message_size compression_mode options (r, l) =
    ((if raw options then Ok (PyBytes payload)
      else deserialize (BytesBuffer.mk payload 0 e) (QReader._is_native r) options),
     (QReader.mk (Some s) (QReader._encoding r) (BytesBuffer.mk payload 0 e)
        (QReader._is_native r) options,
      set_transport s (mkTransport (sent t) (closing t) rest (arriving t)) l)).
Proof.
  intros Hs Ht Hb Hmode Hlen e.
  unfold QReader.read_data, QReader.super_read_data.
  unfold bind at 1. unfold on_fst at 1, modify at 1. cbn [fst snd].
  unfold bind at 1. unfold QReader.self at 1. cbn [fst snd].
  replace (0 <? compression_mode) with false by (symmetry; apply Z.ltb_ge; lia).
  cbn [QReader.set_options QReader._stream]. rewrite Hs. cbn [truthy negb andb].
  rewrite <- Hlen.
  unfold bind at 1. unfold bind at 1.
  erewrite read_bytes_front; [| done | exact Ht | exact Hb].
  unfold bind, QReader.on_buffer, BytesBuffer.wrap, modify, ret, QReader.self, of_result.
  cbn [fst snd QReader._buffer QReader.set_buffer QReader.set_options
       BytesBuffer.endianness QReader._options QReader._is_native QReader._stream
       QReader._encoding].
  unfold QReader.set_buffer, QReader.set_options.
  cbn [QReader._buffer BytesBuffer.endianness QReader._options QReader._is_native
       QReader._stream QReader._encoding].
  rewrite Hs. fold e. destruct (raw options); reflexivity.
Qed.

(** [read] of a whole uncompressed frame in the stream's buffer. *)
Lemma read_frame_steps :
  forall (r : QReader.t) (l : Loop) (s : stream) (t : Transport)
         (marker kind ext s0 s1 s2 s3 : byte) (payload rest : bytes) (options : Options),
    QReader._stream r = Some s ->
    transports l !! s = Some t ->
    buffer t = ([marker; kind; x00; ext; s0; s1; s2; s3] ++ payload ++ rest)%list ->
    let e := if byte_val marker =? 1 then LittleEndian else BigEndian in
    let size := unpack_unsigned e [s0; s1; s2; s3] + Z.shiftl (byte_val ext) 32 in
    len payload = size - 8 ->
    QReader.read None options (r, l) =
      (match (if raw options then Ok (PyBytes payload)
              else deserialize (BytesBuffer.mk payload 0 e)
                     (Endianness_eqb e sys_byteorder) options) with
       | Ok data => Ok (QMessage.mk data (byte_val kind) size 0)
       | Raise err => Raise err
       end,
       (QReader.mk (Some s) (QReader._encoding r) (BytesBuffer.mk payload 0 e)
          (Endianness_eqb e sys_byteorder) options,
        set_transport s (mkTransport (sent t) (closing t) rest (arriving t)) l)).
Proof.
  intros r l s t marker kind ext s0 s1 s2 s3 payload rest options Hs Ht Hb e size Hlen.
  assert (Hlt : (s < List.length (transports l))%nat) by (by eapply lookup_lt_Some).
  unfold QReader.read. unfold bind at 1.
  rewrite (read_header_buffered marker kind x00 ext s0 s1 s2 s3 (payload ++ rest)
             None r l s t Hs Ht Hb).
  fold e. cbn [QMessage.size QMessage.compression_mode]. fold size.
  unfold bind at 1.
  erewrite read_data_plain_buffered;
    [| reflexivity | apply list_lookup_insert_eq; exact Hlt | reflexivity
     | vm_compute; discriminate | exact Hlen].
  cbn [QReader._buffer BytesBuffer.endianness QReader._is_native QReader._encoding
       closing sent arriving].
  assert (Hl : set_transport s (mkTransport (sent t) (closing t) rest (arriving t))
                 (set_transport s
                    (mkTransport (sent t) (closing t) (payload ++ rest) (arriving t)) l)
               = set_transport s (mkTransport (sent t) (closing t) rest (arriving t)) l).
  { unfold set_transport. cbn [transports network]. by rewrite list_insert_insert_eq. }
  rewrite Hl.
  destruct (raw options); [reflexivity|].
  destruct (deserialize _ _ _); reflexivity.
Qed.

(** X12.  When a whole uncompressed frame is in the stream's buffer,
    [read] returns the message with the kind and the size of the header
    and, as data, the payload itself with the raw option or what the codec
    decodes from exactly the payload otherwise; it takes the frame's
    [size] bytes from the stream and leaves the bytes after the frame
    buffered for the next read. *)
Theorem read_buffered_frame :
  forall (r : QReader.t) (l : Loop) (s : stream) (t : Transport)
         (marker kind ext s0 s1 s2 s3 : byte) (payload rest : bytes) (options : Options),
    QReader._stream r = Some s ->
    transports l !! s = Some t ->
    buffer t = ([marker; kind; x00; ext; s0; s1; s2; s3] ++ payload ++ rest)%list ->
    let e := if byte_val marker =? 1 then LittleEndian else BigEndian in
    let size := unpack_unsigned e [s0; s1; s2; s3] + Z.shiftl (byte_val ext) 32 in
    len payload = size - 8 ->
    QReader.read None options (r, l) =
      (match (if raw options then Ok (PyBytes payload)
              else deserialize (BytesBuffer.mk payload 0 e)
                     (Endianness_eqb e sys_byteorder) options) with
       | Ok data => Ok (QMessage.mk data (byte_val kind) size 0)
       | Raise err => Raise err
       end,
       (QReader.mk (Some s) (QReader._encoding r) (BytesBuffer.mk payload 0 e)
          (Endianness_eqb e sys_byteorder) options,
        set_transport s (mkTransport (sent t) (closing t) rest (arriving t)) l)).
Proof. apply read_frame_steps. Qed.

(** X13.  A header that declares a size below 8 makes the stream-backed
    [read_data] of an uncompressed message ask for a negative number of
    bytes, which reads the stream to its end: every byte the peer sends
    until it closes is taken as the payload, and an empty rest is a
    [QReaderException]. *)
Theorem read_data_undersized_drains_stream :
  forall (r : QReader.t) (l : Loop) (s : stream) (t : Transport)
         (message_size compression_mode : Z) (options : Options),
    QReader._stream r = Some s ->
    transports l !! s = Some t ->
    compression_mode <= 0 ->
    message_size < 8 ->
    let everything := (buffer t ++ List.concat (arriving t))%list in
    let e := BytesBuffer.endianness (QReader._buffer r) in
    exists r',
      QReader.read_data message_size compression_mode options (r, l) =
        ((if len everything =? 0 then Raise (QReaderException "Error while reading data")
          else if raw options then Ok (PyBytes everything)
          else deserialize (BytesBuffer.mk everything 0 e) (QReader._is_native r) options),
         (r', set_transport s (mkTransport (sent t) (closing t) [] []) l)).
Proof.
  intros r l s t message_size compression_mode options Hs Ht Hmode Hsize everything e.
  unfold QReader.read_data, QReader.super_read_data.
  unfold bind at 1. unfold on_fst at 1, modify at 1. cbn [fst snd].
  unfold bind at 1. unfold QReader.self at 1. cbn [fst snd].
  replace (0 <? compression_mode) with false by (symmetry; apply Z.ltb_ge; lia).
  cbn [QReader.set_options QReader._stream]. rewrite Hs. cbn [truthy negb andb].
  unfold bind at 1. unfold bind at 1.
  erewrite read_bytes_negative; [| done | exact Ht | lia].
  fold everything.
  destruct (len everything =? 0); [eexists; reflexivity|].
  unfold bind, QReader.on_buffer, BytesBuffer.wrap, modify, ret, QReader.self, of_result,
    QReader.set_buffer, QReader.set_options.
  cbn [fst snd QReader._buffer QReader._stream QReader._encoding QReader._is_native
       QReader._options BytesBuffer.endianness].
  fold e. destruct (raw options); eexists; reflexivity.
Qed.

End Frames.

(** ** Decoding a supplied chunk *)

Lemma quiet_ret {A} (a : A) : quiet (ret a).
Proof. intros r l Hs. done. Qed.

Lemma quiet_raise {A} (e : exn) : quiet (@raise QReader.State A e).
Proof. intros r l Hs. done. Qed.

Lemma quiet_of_result {A} (x : result A) : quiet (of_result x).
Proof. intros r l Hs. done. Qed.

Lemma quiet_bind {A B} (m : M QReader.State A) (k : A -> M QReader.State B) :
  quiet m -> (forall a, quiet (k a)) -> quiet (bind m k).
Proof.
  intros Hm Hk r l Hs. unfold bind.
  destruct (Hm r l Hs) as [Hl Hr].
  destruct (m (r, l)) as [[a|e] [r1 l1]]; cbn [fst snd] in *; subst l1; [|done].
  by apply Hk.
Qed.

Lemma quiet_self {B} (k : QReader.t -> M QReader.State B) :
  (forall r, QReader._stream r = None -> quiet (k r)) ->
  quiet (r <- QReader.self ;; k r)%py.
Proof. intros Hk r l Hs. unfold bind, QReader.self. cbn [fst snd]. by apply Hk. Qed.

Lemma quiet_on_buffer {A} (m : M BytesBuffer.t A) : quiet (QReader.on_buffer m).
Proof.
  intros r l Hs. unfold QReader.on_buffer. cbn [fst snd].
  destruct (m (QReader._buffer r)) as [x b']. done.
Qed.

Lemma quiet_set_is_native (n : bool) : quiet (on_fst (modify (QReader.set_is_native n))).
Proof. intros r l Hs. done. Qed.

Lemma quiet_set_options (o : Options) : quiet (on_fst (modify (QReader.set_options o))).
Proof. intros r l Hs. done. Qed.

Section Chunk.
Context `{Externals}.

Lemma quiet_read_header (source : option bytes) : quiet (QReader.read_header source).
Proof.
  unfold QReader.read_header.
  apply quiet_self. intros r Hs. rewrite Hs. cbn [truthy].
  apply quiet_bind.
  { destruct source; [apply quiet_on_buffer | apply quiet_raise]. }
  intros _. apply quiet_bind; [apply quiet_on_buffer|]. intros marker.
  apply quiet_bind; [apply quiet_on_buffer|]. intros _.
  apply quiet_self. intros r1 Hs1.
  apply quiet_bind; [apply quiet_set_is_native|]. intros _.
  apply quiet_bind; [apply quiet_on_buffer|]. intros message_type.
  apply quiet_bind; [apply quiet_on_buffer|]. intros mode.
  apply quiet_bind; [apply quiet_on_buffer|]. intros ext.
  apply quiet_bind; [apply quiet_on_buffer|]. intros size.
  apply quiet_ret.
Qed.

Lemma quiet_read_data (message_size compression_mode : Z) (options : Options) :
  quiet (QReader.read_data message_size compression_mode options).
Proof.
  unfold QReader.read_data, QReader.super_read_data.
  apply quiet_bind; [apply quiet_set_options|]. intros _.
  apply quiet_self. intros r Hs. rewrite Hs. cbn [truthy negb andb].
  apply quiet_bind.
  { destruct (0 <? compression_mode); [|apply quiet_ret].
    apply quiet_bind; [apply quiet_ret|]. intros _.
    apply quiet_bind; [apply quiet_on_buffer|]. intros field.
    apply quiet_bind; [apply quiet_on_buffer|]. intros compressed_data.
    destruct (-8 + field <=? 0); [apply quiet_raise|].
    apply quiet_bind; [apply quiet_of_result|]. intros raw_data.
    apply quiet_bind; [apply quiet_on_buffer|]. intros _. apply quiet_ret. }
  intros raw_data.
  apply quiet_bind.
  { destruct (raw (QReader._options r)); [apply quiet_on_buffer | apply quiet_ret]. }
  intros raw_data'. apply quiet_self. intros r1 Hs1.
  destruct (raw (QReader._options r1)); [apply quiet_ret | apply quiet_of_result].
Qed.

(** X15.  A reader without a stream does no I/O: whatever the chunk and
    the options, and whether it returns or raises, [read] leaves every
    transport and the network as they were and the reader without a
    stream. *)
Theorem read_chunk_does_no_io :
  forall (source : option bytes) (options : Options) (r : QReader.t) (l : Loop),
    QReader._stream r = None ->
    snd (snd (QReader.read source options (r, l))) = l /\
    QReader._stream (fst (snd (QReader.read source options (r, l)))) = None.
Proof.
  intros source options r l Hs. revert r l Hs.
  change (quiet (QReader.read source options)).
  unfold QReader.read.
  apply quiet_bind; [apply quiet_read_header|]. intros message.
  apply quiet_bind; [apply quiet_read_data|]. intros data.
  apply quiet_ret.
Qed.

(** [read_header] on a supplied chunk. *)
Lemma read_header_chunk (marker kind mode ext s0 s1 s2 s3 : byte) (more : bytes)
    (r : QReader.t) (l : Loop) :
  QReader._stream r = None ->
  let e := if byte_val marker =? 1 then LittleEndian else BigEndian in
  QReader.read_header (Some ([marker; kind; mode; ext; s0; s1; s2; s3] ++ more)) (r, l) =
    (Ok (QMessage.mk PyNone (byte_val kind)
           (unpack_unsigned e [s0; s1; s2; s3] + Z.shiftl (byte_val ext) 32)
           (byte_val mode)),
     (QReader.mk None (QReader._encoding r)
        (BytesBuffer.mk ([marker; kind; mode; ext; s0; s1; s2; s3] ++ more) 8 e)
        (Endianness_eqb e sys_byteorder) (QReader._options r), l)).
Proof.
  intros Hs e.
  unfold QReader.read_header.
  unfold bind at 1. unfold QReader.self at 1. cbn [fst].
  rewrite Hs. cbn [truthy].
  unfold bind at 1.
  unfold QReader.on_buffer at 1, BytesBuffer.wrap, modify. cbn [fst snd].
  etransitivity.
  { apply (header_fields marker kind mode ext s0 s1 s2 s3 more); reflexivity. }
  cbn [QReader._stream QReader._encoding QReader._options QReader.set_buffer].
  rewrite Hs. reflexivity.
Qed.

(** X16.  When the supplied chunk starts with a whole uncompressed frame,
    [read] returns the message with the kind and the size of the header
    and, as data, the frame's payload with the raw option, or otherwise
    what the codec decodes from the chunk at offset 8; bytes after the
    frame are ignored. *)
Theorem read_chunk_frame :
  forall (r : QReader.t) (l : Loop)
         (marker kind ext s0 s1 s2 s3 : byte) (payload more : bytes) (options : Options),
    QReader._stream r = None ->
    let chunk := ([marker; kind; x00; ext; s0; s1; s2; s3] ++ payload ++ more)%list in
    let e := if byte_val marker =? 1 then LittleEndian else BigEndian in
    let size := unpack_unsigned e [s0; s1; s2; s3] + Z.shiftl (byte_val ext) 32 in
    len payload = size - 8 ->
    exists r',
      QReader.read (Some chunk) options (r, l) =
        (match (if raw options then Ok (PyBytes payload)
                else deserialize (BytesBuffer.mk chunk 8 e)
                       (Endianness_eqb e sys_byteorder) options) with
         | Ok data => Ok (QMessage.mk data (byte_val kind) size 0)
         | Raise err => Raise err
         end, (r', l)).
Proof.
  intros r l marker kind ext s0 s1 s2 s3 payload more options Hs chunk e size Hlen.
  unfold QReader.read. unfold bind at 1.
  unfold chunk.
  rewrite (read_header_chunk marker kind x00 ext s0 s1 s2 s3 (payload ++ more) r l Hs).
  fold e. cbn [QMessage.size QMessage.compression_mode]. fold size.
  unfold bind at 1.
  unfold QReader.read_data, QReader.super_read_data.
  unfold bind at 1. unfold on_fst at 1, modify at 1. cbn [fst snd].
  unfold bind at 1. unfold QReader.self at 1. cbn [fst snd].
  change (0 <? byte_val x00) with false.
  cbn [QReader.set_options QReader._stream QReader._options truthy negb andb].
  unfold bind at 1. unfold ret at 1.
  destruct (raw options) eqn:Hraw.
  - rewrite <- Hlen.
    unfold bind at 1. unfold QReader.on_buffer at 1.
    unfold QReader.set_options.
    cbn [fst snd QReader._buffer QReader._stream QReader._encoding QReader._is_native
         QReader._options].
    rewrite raw_within;
      [| unfold len; lia
       | unfold len; rewrite !length_app; simpl; lia].
    cbn [fst snd].
    unfold bind, QReader.self, ret, QReader.set_buffer.
    cbn [fst snd QReader._options QReader._buffer QReader._stream QReader._encoding
         QReader._is_native].
    rewrite Hraw.
    change (drop 8 ([marker; kind; x00; ext; s0; s1; s2; s3] ++ payload ++ more))
      with (payload ++ more)%list.
    unfold len. rewrite Nat2Z.id, take_app_length.
    eexists. reflexivity.
  - unfold bind, QReader.self, ret, of_result, QReader.set_options.
    cbn [fst snd QReader._options QReader._buffer QReader._is_native].
    rewrite Hraw.
    destruct (deserialize _ _ _); eexists; reflexivity.
Qed.

(** X17.  With the raw option, [read_data] of a compressed message in a
    supplied chunk does not return the decompressed data as they are: it
    reads [message_size - 8] bytes again from the buffer that now wraps
    them, and so returns their first [message_size - 8] bytes, or raises
    when the kernel produced fewer. *)
Theorem read_data_chunk_raw_compressed :
  forall (r : QReader.t) (l : Loop) (message_size compression_mode : Z)
         (options : Options) (header block more decompressed : bytes),
    QReader._stream r = None ->
    drop (BytesBuffer.position (QReader._buffer r)) (BytesBuffer.data (QReader._buffer r))
      = (header ++ block ++ more)%list ->
    0 < compression_mode ->
    len header = (if compression_mode =? 1 then 4 else 8) ->
    len block = message_size - (8 + len header) ->
    let e := BytesBuffer.endianness (QReader._buffer r) in
    let field := if compression_mode =? 1 then unpack_unsigned e header
                 else unpack_signed e header in
    0 < -8 + field ->
    uncompress block (-8 + field) = Ok decompressed ->
    raw options = true ->
    fst (QReader.read_data message_size compression_mode options (r, l)) =
      if len decompressed <? message_size - 8 then
        Raise (QReaderException "Attempt to read data out of buffer bounds")
      else Ok (PyBytes (take (Z.to_nat (message_size - 8)) decompressed)).
Proof.
  intros r l message_size compression_mode options header block more decompressed
    Hs Hdrop Hmode Hhdr Hblock e field Hfield Hkernel Hraw.
  destruct r as [st enc [data pos en] native opts].
  cbn [QReader._stream QReader._buffer BytesBuffer.position BytesBuffer.data
       BytesBuffer.endianness] in *. subst st.
  assert (Hhpos : 0 < len header) by (destruct (compression_mode =? 1); lia).
  assert (Hbpos : 0 <= len block) by (unfold len; lia).
  assert (Hlen : Z.of_nat pos + len header + len block <= len data).
  { apply (f_equal (@List.length byte)) in Hdrop.
    rewrite length_drop, !length_app in Hdrop. unfold len in *. lia. }
  assert (Hdrop2 : drop (pos + Z.to_nat (len header)) data = (block ++ more)%list).
  { rewrite <- drop_drop, Hdrop. unfold len. rewrite Nat2Z.id. apply drop_app_length. }
  assert (Hget :
    QReader.on_buffer (if compression_mode =? 1 then BytesBuffer.get_uint
                       else BytesBuffer.get_long)
      (QReader.mk None enc (BytesBuffer.mk data pos en) native options, l)
    = (Ok field,
       (QReader.mk None enc (BytesBuffer.mk data (pos + Z.to_nat (len header)) en)
          native options, l))).
  { unfold QReader.on_buffer, field, e. cbn [fst snd QReader._buffer QReader.set_buffer].
    destruct (compression_mode =? 1);
      unfold BytesBuffer.get_uint, BytesBuffer.get_long, bind, get, ret;
      rewrite <- Hhdr; (rewrite raw_within by lia);
      rewrite Hdrop; unfold len; rewrite Nat2Z.id, take_app_length; reflexivity. }
  unfold QReader.read_data, QReader.super_read_data.
  unfold bind at 1. unfold on_fst at 1, modify at 1. cbn [fst snd].
  unfold bind at 1. unfold QReader.self at 1. cbn [fst snd].
  replace (0 <? compression_mode) with true by (symmetry; apply Z.ltb_lt; lia).
  unfold QReader.set_options.
  cbn [QReader._stream QReader._encoding QReader._buffer QReader._is_native
       QReader._options truthy negb andb].
  rewrite Hraw. rewrite <- Hhdr.
  replace (message_size - (8 + len header)) with (len block) by lia.
  unfold bind at 1. unfold bind at 1. unfold bind at 1. unfold ret at 1.
  rewrite Hget. unfold bind at 1.
  unfold QReader.on_buffer at 1. cbn [fst snd QReader._buffer].
  rewrite raw_within by lia. rewrite Hdrop2.
  unfold len at 1. rewrite Nat2Z.id, take_app_length.
  replace (-8 + field <=? 0) with false by (symmetry; apply Z.leb_gt; lia).
  unfold bind at 1. unfold of_result at 1. rewrite Hkernel.
  unfold bind, QReader.on_buffer, BytesBuffer.wrap, modify, ret, QReader.self,
    QReader.set_buffer, BytesBuffer.raw.
  cbn [fst snd QReader._buffer QReader._stream QReader._encoding QReader._is_native
       QReader._options BytesBuffer.data BytesBuffer.position BytesBuffer.endianness].
  replace (message_size - 8) with (len header + len block) by lia.
  replace (len header + len block <? 0) with false by (symmetry; apply Z.ltb_ge; lia).
  cbn [orb]. change (Z.of_nat 0 + (len header + len block)) with (len header + len block).
  destruct (len decompressed <? len header + len block); cbn [fst snd]; [reflexivity|].
  cbn [QReader._options]. rewrite Hraw. reflexivity.
Qed.

End Chunk.

(** ** A synchronous exchange *)

Section Exchange.
Context `{Externals}.

(** X8.  On a connection whose writer and reader are bound to its open
    stream, when the peer's RESPONSE frame is already in the stream's
    buffer, [sendSync] sends one frame, the one the writer without a
    stream would return for the query, then reads exactly the response
    frame and returns its payload (raw, or decoded by the codec); the
    bytes after the response stay buffered. *)
Theorem sendSync_returns_buffered_response :
  forall (q : pyobj) (parameters : list pyobj) (options : Options)
         (c : QConnection.t) (l l0 l0' : Loop) (s : stream) (t : Transport)
         (w w0' : QWriter.t) (rd : QReader.t) (frame : bytes)
         (marker ext s0 s1 s2 s3 : byte) (payload rest : bytes),
    QConnection._s_writer c = Some s ->
    QConnection._writer c = Some w ->
    QWriter._stream w = Some s ->
    QConnection._reader c = Some rd ->
    QReader._stream rd = Some s ->
    transports l !! s = Some t ->
    closing t = false ->
    len parameters <= 8 ->
    let opts := union_dict (QConnection._options c) options in
    QWriter.write (match parameters with
                   | [] => q
                   | _ :: _ => PyList (q :: parameters)
                   end) MessageType.SYNC opts
      (QWriter.mk None (QWriter._protocol_version w) (QWriter._encoding w)
         (QWriter._buffer w), l0)
      = (Ok (Some frame), (w0', l0')) ->
    buffer t = ([marker; x02; x00; ext; s0; s1; s2; s3] ++ payload ++ rest)%list ->
    let e := if byte_val marker =? 1 then LittleEndian else BigEndian in
    let size := unpack_unsigned e [s0; s1; s2; s3] + Z.shiftl (byte_val ext) 32 in
    len payload = size - 8 ->
    exists c',
      QConnection.sendSync q parameters options (c, l) =
        ((if raw opts then Ok (PyBytes payload)
          else deserialize (BytesBuffer.mk payload 0 e)
                 (Endianness_eqb e sys_byteorder) opts),
         (c', set_transport s
                (mkTransport (sent t ++ frame) false rest (arriving t)) l)).
Proof.
  intros q parameters options c l l0 l0' s t w w0' rd frame marker ext s0 s1 s2 s3
    payload rest Hsw Hw Hws Hrd Hrs Ht Hc Hlen opts Hframe Hb e size Hsize.
  assert (Hlt : (s < List.length (transports l))%nat) by (by eapply lookup_lt_Some).
  destruct (writer_write_bound _ _ _ w l l0 s t frame w0' l0' Hws Ht Hc Hframe)
    as [_ Hwrite].
  assert (Hquery :
    QConnection.query MessageType.SYNC q parameters options (c, l) =
      (Ok tt,
       (QConnection.set_writer (Some (QWriter.set_buffer frame w)) c,
        set_transport s (mkTransport (sent t ++ frame) false (buffer t) (arriving t)) l))).
  { rewrite query_steps. rewrite Hsw. cbn [truthy negb].
    replace (8 <? len parameters) with false by (symmetry; apply Z.ltb_ge; lia).
    rewrite andb_false_r.
    destruct parameters as [|p ps].
    - change (0 =? len (@nil pyobj)) with true. cbn [orb].
      unfold bind, QConnection.on_writer. cbn [fst snd]. rewrite Hw.
      fold opts. rewrite Hwrite. reflexivity.
    - replace (0 =? len (p :: ps)) with false
        by (symmetry; apply Z.eqb_neq; unfold len; simpl; lia).
      replace (len (p :: ps) =? 0) with false
        by (symmetry; apply Z.eqb_neq; unfold len; simpl; lia).
      cbn [orb].
      unfold bind, QConnection.on_writer. cbn [fst snd]. rewrite Hw.
      fold opts. rewrite Hwrite. reflexivity. }
  unfold QConnection.sendSync. unfold bind at 1. rewrite Hquery.
  unfold bind at 1. unfold QConnection.receive.
  unfold bind at 1. unfold QConnection.self at 1. cbn [fst snd].
  unfold bind at 1. unfold QConnection.on_reader at 1.
  cbn [fst snd QConnection.set_writer QConnection._reader QConnection._options].
  rewrite Hrd. fold opts.
  rewrite (read_frame_steps rd _ s
             (mkTransport (sent t ++ frame) false (buffer t) (arriving t))
             marker x02 ext s0 s1 s2 s3 payload rest opts Hrs);
    [| apply list_lookup_insert_eq; exact Hlt | exact Hb | exact Hsize].
  fold e. fold size.
  assert (Hl : set_transport s
                 (mkTransport (sent t ++ frame) false rest (arriving t))
                 (set_transport s
                    (mkTransport (sent t ++ frame) false (buffer t) (arriving t)) l)
               = set_transport s (mkTransport (sent t ++ frame) false rest (arriving t)) l).
  { unfold set_transport. cbn [transports network]. by rewrite list_insert_insert_eq. }
  cbn [sent closing arriving]. rewrite Hl.
  destruct (raw opts).
  - eexists. reflexivity.
  - destruct (deserialize _ _ _); eexists; reflexivity.
Qed.

End Exchange.

(** ** The further properties at concrete inputs *)

Lemma open_without_host_raises_before_connecting_witness :
  @QConnection.open Harness.stub (Harness.hostless, Harness.loop [Accept [[x03]]])
  = (Raise (QConnectionException "Host cannot be None"),
     (Harness.hostless, Harness.loop [Accept [[x03]]])).
Proof.
  apply (@open_without_host_raises_before_connecting Harness.stub Harness.hostless
           (Harness.loop [Accept [[x03]]])).
  - reflexivity.
  - left. reflexivity.
Defined.

Lemma open_encoding_failure_leaves_transport_open_witness :
  exists c',
    @QConnection.open Harness.unencodable (Harness.fresh, Harness.loop [Accept [[x03]]])
      = (Raise UnicodeEncodeError, (c', mkLoop [mkTransport [] false [] [[x03]]] [])) /\
    QConnection.is_connected c' = true /\
    QConnection._s_writer c' = Some 0%nat /\
    QConnection._writer c' = None /\
    QConnection._reader c' = None /\
    QConnection._protocol_version c' = None.
Proof.
  apply (@open_encoding_failure_leaves_transport_open Harness.unencodable Harness.fresh
           (Harness.loop [Accept [[x03]]]) UnicodeEncodeError [[x03]] []).
  - reflexivity.
  - reflexivity.
  - reflexivity.
  - reflexivity.
Defined.

Lemma open_binds_reader_and_writer_witness :
  exists (c' : QConnection.t) (l' : Loop) (w : QWriter.t) (rd : QReader.t),
    @QConnection.open Harness.stub (Harness.fresh, Harness.loop [Accept [[x02]]])
      = (Ok tt, (c', l')) /\
    QConnection._s_writer c' = Some 0%nat /\
    QConnection._s_reader c' = Some 0%nat /\
    QConnection._writer c' = Some w /\
    QConnection._reader c' = Some rd /\
    QWriter._stream w = Some 0%nat /\
    QReader._stream rd = Some 0%nat /\
    QWriter._protocol_version w = Some (Z.min (byte_val x02) 3) /\
    QWriter._encoding w = "latin-1"%string /\
    QReader._encoding rd = "latin-1"%string.
Proof.
  apply (@open_binds_reader_and_writer Harness.stub Harness.fresh
           (Harness.loop [Accept [[x02]]]) (Harness.latin1 ":") [[x02]] [] [] x02 []).
  - reflexivity.
  - reflexivity.
  - reflexivity.
  - simpl. lia.
  - reflexivity.
  - reflexivity.
Defined.

Lemma close_then_open_does_not_reconnect_witness :
  exists l',
    (QConnection.close ;; @QConnection.open Harness.stub)%py Harness.opened
      = (Ok tt, (fst Harness.opened, l')) /\
    QConnection.is_connected (fst Harness.opened) = true /\
    transports l' = [mkTransport Harness.handshake_frame true [] []] /\
    network l' = [].
Proof.
  apply (@close_then_open_does_not_reconnect Harness.stub
           (fst Harness.opened) (snd Harness.opened) 0%nat
           (mkTransport Harness.handshake_frame false [] [])).
  - reflexivity.
  - reflexivity.
Defined.

Lemma write_sends_the_unbound_frame_witness :
  Harness.loop [] = Harness.loop [] /\
  @QWriter.write Harness.stub (PyStr "q") MessageType.SYNC []
    (Harness.opened_writer, snd Harness.opened)
  = (Ok None,
     (QWriter.set_buffer Harness.query_frame Harness.opened_writer,
      set_transport 0%nat
        (mkTransport (Harness.handshake_frame ++ Harness.query_frame) false [] [])
        (snd Harness.opened))).
Proof.
  apply (@write_sends_the_unbound_frame Harness.stub (PyStr "q") MessageType.SYNC []
           Harness.opened_writer (snd Harness.opened) (Harness.loop []) 0%nat
           (mkTransport Harness.handshake_frame false [] []) Harness.query_frame
           (QWriter.mk None (Some 3) "latin-1" Harness.query_frame) (Harness.loop [])).
  - reflexivity.
  - reflexivity.
  - reflexivity.
  - reflexivity.
Defined.

Lemma query_after_close_raises_ConnectionResetError_witness :
  exists c',
    (QConnection.close ;;
     @QConnection.query Harness.stub MessageType.SYNC (PyStr "q") [] [])%py Harness.opened
      = (Raise ConnectionResetError,
         (c', set_transport 0%nat (mkTransport Harness.handshake_frame true [] [])
                (snd Harness.opened))) /\
    kind_of ConnectionResetError <> ConnectionError.
Proof.
  apply (@query_after_close_raises_ConnectionResetError Harness.stub MessageType.SYNC
           (PyStr "q") [] [] (fst Harness.opened) (snd Harness.opened) 0%nat
           (mkTransport Harness.handshake_frame false [] []) Harness.opened_writer
           (Harness.latin1 "q")).
  - reflexivity.
  - reflexivity.
  - reflexivity.
  - reflexivity.
  - unfold len. simpl. lia.
  - reflexivity.
Defined.

(** [query('q')] after [open()] against a peer that closes without
    answering, and after [open()] against a peer that answers with version
    3 followed by [close()]. *)
Lemma query_on_closed_connection_misses_ConnectionError_witness :
  (exists (c' : QConnection.t) (l' : Loop) (t : Transport) (e : exn) (msg : string),
     @QConnection.open Harness.stub (Harness.fresh, Harness.loop [Accept []]) =
       (Raise (TypeError "object NoneType can't be used in 'await' expression"),
        (c', l')) /\
     transports l' = (transports (Harness.loop [Accept []]) ++ [t])%list /\
     closing t = true /\
     QConnection.is_connected c' = true /\
     @QConnection.query Harness.stub MessageType.SYNC (PyStr "q") [] [] (c', l')
       = (Raise e, (c', l')) /\
     e = AttributeError msg /\
     kind_of e <> ConnectionError) /\
  (exists (c1 c' : QConnection.t) (l1 : Loop) (t : Transport) (e : exn),
     (@QConnection.open Harness.stub ;; QConnection.close)%py
       (Harness.fresh, Harness.loop [Accept [[x03]]]) = (Ok tt, (c1, l1)) /\
     transports l1 = (transports (Harness.loop [Accept [[x03]]]) ++ [t])%list /\
     closing t = true /\
     QConnection.is_connected c1 = true /\
     @QConnection.query Harness.stub MessageType.SYNC (PyStr "q") [] [] (c1, l1)
       = (Raise e, (c', l1)) /\
     e = ConnectionResetError /\
     kind_of e <> ConnectionError).
Proof.
  assert (Hmax : 0 <= @MAX_PROTOCOL_VERSION Harness.stub < 256) by (simpl; lia).
  assert (Hlen : len (@nil pyobj) <= 8) by (unfold len; simpl; lia).
  split.
  - apply (proj1 (@query_on_closed_connection_misses_ConnectionError Harness.stub
                    MessageType.SYNC (PyStr "q") [] [] Harness.fresh (Harness.latin1 ":")
                    eq_refl eq_refl eq_refl Hmax Hlen)
             (Harness.loop [Accept []]) [] [] []).
    + reflexivity.
    + reflexivity.
    + reflexivity.
  - apply (proj2 (@query_on_closed_connection_misses_ConnectionError Harness.stub
                    MessageType.SYNC (PyStr "q") [] [] Harness.fresh (Harness.latin1 ":")
                    eq_refl eq_refl eq_refl Hmax Hlen)
             (Harness.loop [Accept [[x03]]]) [[x03]] [] [] x03 [] (Harness.latin1 "q")).
    + reflexivity.
    + reflexivity.
    + reflexivity.
Defined.

Lemma sendSync_returns_buffered_response_witness :
  exists c',
    @QConnection.sendSync Harness.stub (PyStr "q") [] [("raw"%string, true)]
      (fst Harness.opened, Harness.opened_with (Harness.response ++ [x07]))
    = (Ok (PyBytes [x2a]),
       (c', set_transport 0%nat
              (mkTransport (Harness.handshake_frame ++ Harness.query_frame) false [x07] [])
              (Harness.opened_with (Harness.response ++ [x07])))).
Proof.
  apply (@sendSync_returns_buffered_response Harness.stub (PyStr "q") []
           [("raw"%string, true)] (fst Harness.opened)
           (Harness.opened_with (Harness.response ++ [x07])) (Harness.loop [])
           (Harness.loop []) 0%nat
           (mkTransport Harness.handshake_frame false (Harness.response ++ [x07]) [])
           Harness.opened_writer
           (QWriter.mk None (Some 3) "latin-1" Harness.query_frame)
           (QReader.mk (Some 0%nat) "latin-1" (BytesBuffer.mk [] 0 LittleEndian) true [])
           Harness.query_frame x01 x00 x09 x00 x00 x00 [x2a] [x07]).
  - reflexivity.
  - reflexivity.
  - reflexivity.
  - reflexivity.
  - reflexivity.
  - reflexivity.
  - reflexivity.
  - unfold len. simpl. lia.
  - reflexivity.
  - reflexivity.
  - reflexivity.
Defined.

Lemma read_bytes_result_bounds_witness :
  len [x01; x02; x03] <= 8 /\
  (0 < 8 -> 0 < len [x01; x02; x03]) /\
  fst (Harness.stream_reader, Harness.delivering []) = Harness.stream_reader /\
  (8 = 0 -> snd (Harness.stream_reader, Harness.delivering [])
            = Harness.delivering [[x01; x02; x03]]).
Proof.
  apply (read_bytes_result_bounds Harness.stream_reader
           (Harness.delivering [[x01; x02; x03]]) 8 [x01; x02; x03]
           (Harness.stream_reader, Harness.delivering [])).
  - lia.
  - reflexivity.
Defined.

Lemma read_bytes_exact_when_buffered_witness :
  QReader._read_bytes (len [x01; x02; x03])
    (Harness.stream_reader, Harness.buffered ([x01; x02; x03] ++ [x04; x05]))
  = (Ok [x01; x02; x03],
     (Harness.stream_reader,
      set_transport 0%nat (mkTransport [] false [x04; x05] [])
        (Harness.buffered ([x01; x02; x03] ++ [x04; x05])))).
Proof.
  apply (read_bytes_exact_when_buffered Harness.stream_reader
           (Harness.buffered ([x01; x02; x03] ++ [x04; x05])) 0%nat
           (mkTransport [] false ([x01; x02; x03] ++ [x04; x05]) [])
           [x01; x02; x03] [x04; x05]).
  - reflexivity.
  - reflexivity.
  - reflexivity.
Defined.

Lemma read_bytes_exhausted_witness :
  exists l',
    QReader._read_bytes 8 (Harness.stream_reader, Harness.delivering [])
    = (Raise (QReaderException "Error while reading data"), (Harness.stream_reader, l')).
Proof.
  apply (read_bytes_exhausted Harness.stream_reader (Harness.delivering []) 0%nat
           (mkTransport [] false [] []) 8).
  - reflexivity.
  - reflexivity.
  - reflexivity.
  - reflexivity.
  - lia.
Defined.

Lemma read_buffered_frame_witness :
  @QReader.read Harness.stub None [("raw"%string, true)]
    (Harness.stream_reader, Harness.buffered (Harness.response ++ [x07]))
  = (Ok (QMessage.mk (PyBytes [x2a]) 2 9 0),
     (QReader.mk (Some 0%nat) "latin-1" (BytesBuffer.mk [x2a] 0 LittleEndian) true
        [("raw"%string, true)],
      set_transport 0%nat (mkTransport [] false [x07] [])
        (Harness.buffered (Harness.response ++ [x07])))).
Proof.
  apply (@read_buffered_frame Harness.stub Harness.stream_reader
           (Harness.buffered (Harness.response ++ [x07])) 0%nat
           (mkTransport [] false (Harness.response ++ [x07]) [])
           x01 x02 x00 x09 x00 x00 x00 [x2a] [x07] [("raw"%string, true)]).
  - reflexivity.
  - reflexivity.
  - reflexivity.
  - reflexivity.
Defined.

Lemma read_data_undersized_drains_stream_witness :
  exists r',
    @QReader.read_data Harness.stub 4 0 [("raw"%string, true)]
      (Harness.stream_reader,
       mkLoop [mkTransport [] false [x01; x02] [[x03]; [x04; x05]]] [])
    = (Ok (PyBytes [x01; x02; x03; x04; x05]),
       (r', set_transport 0%nat (mkTransport [] false [] [])
              (mkLoop [mkTransport [] false [x01; x02] [[x03]; [x04; x05]]] []))).
Proof.
  apply (@read_data_undersized_drains_stream Harness.stub Harness.stream_reader
           (mkLoop [mkTransport [] false [x01; x02] [[x03]; [x04; x05]]] []) 0%nat
           (mkTransport [] false [x01; x02] [[x03]; [x04; x05]]) 4 0
           [("raw"%string, true)]).
  - reflexivity.
  - reflexivity.
  - lia.
  - lia.
Defined.

Lemma read_data_compressed_buffered_witness :
  fst (@QReader.read_data Harness.stub 22 1 [("raw"%string, true)]
         (Harness.stream_reader,
          Harness.buffered ([x12; x00; x00; x00]
                            ++ [x61; x62; x63; x64; x65; x66; x67; x68; x69; x6a] ++ [])))
  = Ok (PyBytes [x61; x62; x63; x64; x65; x66; x67; x68; x69; x6a]).
Proof.
  apply (@read_data_compressed_buffered Harness.stub Harness.stream_reader
           (Harness.buffered ([x12; x00; x00; x00]
                              ++ [x61; x62; x63; x64; x65; x66; x67; x68; x69; x6a] ++ []))
           0%nat
           (mkTransport [] false
              ([x12; x00; x00; x00]
               ++ [x61; x62; x63; x64; x65; x66; x67; x68; x69; x6a] ++ []) [])
           22 1 [("raw"%string, true)] [x12; x00; x00; x00]
           [x61; x62; x63; x64; x65; x66; x67; x68; x69; x6a] []).
  - reflexivity.
  - reflexivity.
  - reflexivity.
  - lia.
  - reflexivity.
  - reflexivity.
  - unfold len. simpl. lia.
Defined.

Lemma read_chunk_does_no_io_witness :
  snd (snd (@QReader.read Harness.stub (Some [x01; x02; x00]) []
              (Harness.chunk_reader, Harness.delivering [[x09]])))
    = Harness.delivering [[x09]] /\
  QReader._stream
    (fst (snd (@QReader.read Harness.stub (Some [x01; x02; x00]) []
                 (Harness.chunk_reader, Harness.delivering [[x09]])))) = None.
Proof.
  apply (@read_chunk_does_no_io Harness.stub (Some [x01; x02; x00]) []
           Harness.chunk_reader (Harness.delivering [[x09]])).
  reflexivity.
Defined.

Lemma read_chunk_frame_witness :
  exists r',
    @QReader.read Harness.stub
      (Some ([x01; x02; x00; x00; x09; x00; x00; x00] ++ [x2a] ++ [x07]))
      [("raw"%string, true)] (Harness.chunk_reader, Harness.delivering [])
    = (Ok (QMessage.mk (PyBytes [x2a]) 2 9 0), (r', Harness.delivering [])).
Proof.
  apply (@read_chunk_frame Harness.stub Harness.chunk_reader (Harness.delivering [])
           x01 x02 x00 x09 x00 x00 x00 [x2a] [x07] [("raw"%string, true)]).
  - reflexivity.
  - reflexivity.
Defined.

(** A compressed message of size 14 in a chunk: the kernel yields 10 bytes,
    the raw result is their first 6. *)
Lemma read_data_chunk_raw_compressed_witness :
  fst (@QReader.read_data Harness.padded 14 1 [("raw"%string, true)]
         (QReader.mk None "latin-1"
            (BytesBuffer.mk ([x12; x00; x00; x00] ++ [x61; x62] ++ []) 0 LittleEndian)
            true [],
          Harness.delivering []))
  = Ok (PyBytes [x61; x62; x00; x00; x00; x00]).
Proof.
  apply (@read_data_chunk_raw_compressed Harness.padded
           (QReader.mk None "latin-1"
              (BytesBuffer.mk ([x12; x00; x00; x00] ++ [x61; x62] ++ []) 0 LittleEndian)
              true [])
           (Harness.delivering []) 14 1 [("raw"%string, true)]
           [x12; x00; x00; x00] [x61; x62] []
           [x61; x62; x00; x00; x00; x00; x00; x00; x00; x00]).
  - reflexivity.
  - reflexivity.
  - lia.
  - reflexivity.
  - reflexivity.
  - reflexivity.
  - reflexivity.
  - reflexivity.
Defined.
